(** * Static asset handlers of the [static] package

    A shallow embedding of the Go package [static] (asset and swagger
    handlers) together with the fragment of the Go standard library the
    package calls: [path.Clean], [filepath.Join], [strings.TrimPrefix],
    [fs.ValidPath], [embed.FS], [time.Time], [http.Error] and
    [http.ServeContent].  Each Go package is a Rocq module of the same
    name, so that [path.Clean] in the development is [path.Clean] in the
    source.  A handler is a function from the state of the response
    writer and the request to the new state of the response writer.
    The deferred [f.Close()] of the handlers is left out: nothing
    below depends on it. *)

From Stdlib Require Import ZArith Ascii String List Bool Lia.
From stdpp Require Import base tactics option list strings gmap pretty.

Local Open Scope Z_scope.

(** ** Go values shared by all packages *)

(** The kinds of [error] the handlers can tell apart: [os.IsNotExist]
    is the only test the source performs on an error. *)
Inductive ErrKind := NotExist | Permission | Invalid | Other.

(** A Go [error]: the text returned by [Error()] and its kind. *)
Record error := mkError { Error : string; Kind : ErrKind }.

(** A Go result pair [(T, error)]: exactly one side is set. *)
Inductive Result (A : Type) :=
| Ok (a : A)
| Err (e : error).
Arguments Ok {A} a.
Arguments Err {A} e.

Global Instance ErrKind_eq_dec : EqDecision ErrKind.
Proof. solve_decision. Defined.

(** ** Package [strings] *)
Module strings.

(** [strings.HasPrefix(s, p)]: [s] begins with [p]. *)
Fixpoint HasPrefix (s p : string) {struct p} : bool :=
  match p, s with
  | EmptyString, _ => true
  | String _ _, EmptyString => false
  | String c p', String d s' => Ascii.eqb d c && HasPrefix s' p'
  end.

(** [strings.TrimPrefix(s, p)]: [s] without the leading [p], or [s]. *)
Definition TrimPrefix (s p : string) : string :=
  if HasPrefix s p
  then String.substring (String.length p) (String.length s - String.length p)%nat s
  else s.

(** [strings.Split(s, "/")]: the elements between the separators; the
    result is never empty. *)
Fixpoint SplitSlash (s : string) : list string :=
  match s with
  | EmptyString => [EmptyString]
  | String c s' =>
      if Ascii.eqb c "/" then EmptyString :: SplitSlash s'
      else match SplitSlash s' with
           | e :: es => String c e :: es
           | [] => [String c EmptyString]
           end
  end.

(** [strings.Join(elems, "/")]. *)
Fixpoint JoinSlash (es : list string) : string :=
  match es with
  | [] => ""
  | [e] => e
  | e :: es' => e +:+ "/" +:+ JoinSlash es'
  end.

End strings.

(** ** Package [path] *)
Module path.

(** One turn of the loop of [path.Clean], which reads the path one
    element at a time.  [out] is the output buffer, last element first.
    An empty element (a repeated slash) and [.] are skipped; [..]
    removes the last element when that is not itself a [..] (the case
    [out.w > dotdot]), is appended when the path is not rooted, and is
    dropped at the root; any other element is appended. *)
Definition step (rooted : bool) (out : list string) (e : string) : list string :=
  if decide (e = "") then out
  else if decide (e = ".") then out
  else if decide (e = "..") then
    match out with
    | top :: rest =>
        if decide (top = "..") then (if rooted then out else e :: out)
        else rest
    | [] => if rooted then out else [e]
    end
  else e :: out.

(** [path.Clean]: the shortest path equivalent to [p] by purely
    lexical processing.  The empty path and a path cleaned to nothing
    are [.]; a rooted path keeps its leading slash. *)
Definition Clean (p : string) : string :=
  if decide (p = "") then "."
  else
    let rooted := strings.HasPrefix p "/" in
    let out := fold_left (step rooted) (strings.SplitSlash p) [] in
    if rooted then "/" +:+ strings.JoinSlash (rev out)
    else if decide (out = []) then "."
    else strings.JoinSlash (rev out).

End path.

(** ** Package [path/filepath] (Unix separator) *)
Module filepath.

(** [filepath.Join(a, b)]: leading empty elements are ignored, the
    rest is joined with the separator and cleaned. *)
Definition Join (a b : string) : string :=
  if decide (a = "") then
    if decide (b = "") then "" else path.Clean b
  else path.Clean (a +:+ "/" +:+ b).

End filepath.

(** ** Package [time] *)
Module time.

(** A [time.Time]: the seconds elapsed since January 1, year 1,
    00:00:00 UTC, the nanoseconds within that second, and the offset
    of its location east of UTC, in seconds. *)
Record Time := mkTime { sec : Z; nsec : Z; offset : Z }.

Global Instance Time_eq_dec : EqDecision Time.
Proof. solve_decision. Defined.

(** The zero value [time.Time{}]. *)
Definition zero : Time := mkTime 0 0 0.

(** [t.IsZero()]: the instant January 1, year 1, 00:00:00 UTC. *)
Definition IsZero (t : Time) : bool := (sec t =? 0) && (nsec t =? 0).

(** Seconds since the epoch as shown by the clock of the location. *)
Definition abs (t : Time) : Z := sec t + offset t.

Definition secondsPerDay : Z := 86400.
Definition daysPer400Years : Z := 365 * 400 + 97.
Definition daysPer100Years : Z := 365 * 100 + 24.
Definition daysPer4Years : Z := 365 * 4 + 1.

Definition isLeap (year : Z) : bool :=
  (year mod 4 =? 0) && (negb (year mod 100 =? 0) || (year mod 400 =? 0)).

(** Days before the start of each month in a non-leap year. *)
Definition daysBefore (month : Z) : Z :=
  nth (Z.to_nat month) [0; 31; 59; 90; 120; 151; 181; 212; 243; 273; 304; 334; 365] 0.

(** [absDate]: year, month and day of the month, from the number of
    days since the epoch, by cutting off cycles of 400, 100, 4 and 1
    years.  Year 1 opens a cycle of 400 years, as the year Go counts
    its absolute seconds from does, so that the day count may start
    there. *)
Definition absDate (t : Time) : Z * Z * Z :=
  let d := abs t / secondsPerDay in
  let n := d / daysPer400Years in
  let y := 400 * n in
  let d := d - daysPer400Years * n in
  let n := d / daysPer100Years in
  let n := n - Z.shiftr n 2 in
  let y := y + 100 * n in
  let d := d - daysPer100Years * n in
  let n := d / daysPer4Years in
  let y := y + 4 * n in
  let d := d - daysPer4Years * n in
  let n := d / 365 in
  let n := n - Z.shiftr n 2 in
  let y := y + n in
  let d := d - 365 * n in
  let year := y + 1 in
  let leap := isLeap year in
  if leap && (d =? 31 + 29 - 1) then (year, 2, 29)
  else
    let day := if leap && (31 + 29 - 1 <? d) then d - 1 else d in
    let month := day / 31 in
    let end_ := daysBefore (month + 1) in
    if end_ <=? day then (year, month + 2, day - end_ + 1)
    else (year, month + 1, day - daysBefore month + 1).

(** [t.Day()]: the day of the month. *)
Definition Day (t : Time) : Z := snd (absDate t).

(** [t.Clock()]: hour, minute and second within the day. *)
Definition Clock (t : Time) : Z * Z * Z :=
  let s := abs t mod secondsPerDay in
  let hour := s / 3600 in
  let s := s - hour * 3600 in
  let min := s / 60 in
  (hour, min, s - min * 60).

(** The layout constant [time.RFC3339]. *)
Definition RFC3339 : string := "2006-01-02T15:04:05Z07:00".

(** [time.Date(...)] in UTC, by counting days; used to write down
    concrete instants. *)
Definition daysSinceEpoch (year : Z) : Z :=
  let y := year - 1 in 365 * y + y / 4 - y / 100 + y / 400.

Definition Date (year month day hour min s : Z) : Time :=
  let d := daysSinceEpoch year + daysBefore (month - 1)
           + (if isLeap year && (3 <=? month) then 1 else 0) + (day - 1) in
  mkTime (d * secondsPerDay + hour * 3600 + min * 60 + s) 0 0.

End time.

(** ** Package [fmt] *)
Module fmt.

(** The verb [%d] of [fmt.Sprintf] on an integer: its decimal digits,
    with a leading minus sign when negative. *)
Definition verb_d (x : Z) : string := pretty x.

End fmt.

(** ** Package [io/fs] *)
Module fs.

(** An element that [ValidPath] accepts: not empty, not [.] and not
    [..]. *)
Definition validElem (e : string) : bool :=
  negb (bool_decide (e = "") || bool_decide (e = ".") || bool_decide (e = "..")).

(** [fs.ValidPath]: an unrooted slash-separated sequence of elements
    none of which is empty, [.] or [..]; the single exception is the
    root [.].  (The UTF-8 check on the name is not modelled.) *)
Definition ValidPath (name : string) : bool :=
  bool_decide (name = ".") || forallb validElem (strings.SplitSlash name).

(** [fs.FileInfo], as far as the handlers read it. *)
Record FileInfo := mkFileInfo {
  Name : string;
  Size : Z;
  ModTime : time.Time;
  IsDir : bool
}.

(** An open [fs.File].  [Stat] is the result of [f.Stat()];
    [ReadSeeker] is the outcome of the type assertion
    [f.(io.ReadSeeker)]: [None] when the handle does not implement
    the interface, otherwise the bytes the handle reads. *)
Record File := mkFile {
  Stat : Result FileInfo;
  ReadSeeker : option string
}.

(** The interface [fs.FS]: its one method, [Open]. *)
Definition FS := string -> Result File.

(** The text of [fs.ErrNotExist]. *)
Definition ErrNotExist : string := "file does not exist".

(** [&fs.PathError{Op: op, Path: path, Err: err}]. *)
Definition PathError (op path : string) (text : string) (k : ErrKind) : error :=
  mkError (op +:+ " " +:+ path +:+ ": " +:+ text) k.

End fs.

(** ** Package [os] *)
Module os.

(** [os.IsNotExist(err)]. *)
Definition IsNotExist (err : error) : bool := bool_decide (Kind err = NotExist).

End os.

(** ** Package [embed] *)
Module embed.

(** One entry of an embedded tree: a directory has a name that ends
    with a slash and no data. *)
Record file := mkfile { name : string; data : string }.

(** [embed.FS]: the entries the compiler recorded. *)
Definition FS := list file.

Definition trimSlash (name : string) : string :=
  let n := String.length name in
  if (0 <? Z.of_nat n) && bool_decide (String.get (n - 1) name = Some "/"%char)
  then String.substring 0 (n - 1) name
  else name.

Definition IsDir (f : file) : bool := negb (bool_decide (trimSlash (name f) = name f)).

(** The last element of the entry's name: [f.Name()]. *)
Definition Name (f : file) : string :=
  List.last (strings.SplitSlash (trimSlash (name f))) "".

(** The root directory [.] of every embedded tree. *)
Definition dotFile : file := mkfile "./" "".

(** [f.lookup(name)]: the entry called [name], if any.  The source
    finds it by binary search in the sorted entries; names are unique,
    so the first match of a scan is the same entry. *)
Definition lookup (f : FS) (n : string) : option file :=
  if negb (fs.ValidPath n) then None
  else if bool_decide (n = ".") then Some dotFile
  else List.find (fun x => bool_decide (trimSlash (name x) = n)) f.

(** [f.Stat()] on an entry: embedded files carry no modification
    time. *)
Definition info (f : file) : fs.FileInfo :=
  fs.mkFileInfo (Name f) (Z.of_nat (String.length (data f))) time.zero (IsDir f).

(** [f.Open(name)]: an [openDir] handle cannot seek, an [openFile]
    handle reads the entry's data. *)
Definition Open (f : FS) : fs.FS := fun n =>
  match lookup f n with
  | None => Err (fs.PathError "open" n fs.ErrNotExist NotExist)
  | Some file =>
      if IsDir file then Ok (fs.mkFile (Ok (info file)) None)
      else Ok (fs.mkFile (Ok (info file)) (Some (data file)))
  end.

End embed.

(** ** What the package takes from its surroundings

    The build date comes from the [platform] package, the embedded tree
    from the build, and the host file system, the RFC 3339 parser, the
    MIME tables and the HTTP date format from the Go runtime.  They are
    the parameters of the development. *)
Class World := {
  (** [platform.GetBuildInfo().Date] *)
  BuildDate : string;
  (** [time.Parse(layout, value)] *)
  time_Parse : string -> string -> Result time.Time;
  (** The variable [data] filled by [go:embed data/*] *)
  data : embed.FS;
  (** [os.DirFS(dir)] *)
  os_DirFS : string -> fs.FS;
  (** The content type [http.ServeContent] derives from a file name and,
      failing that, from the first bytes of the content *)
  contentTypeOf : string -> string -> string;
  (** [t.UTC().Format(http.TimeFormat)] *)
  httpTimeFormat : time.Time -> string
}.

(** ** Package [net/http] *)
Module http.

Definition StatusOK : Z := 200.
Definition StatusNotModified : Z := 304.
Definition StatusNotFound : Z := 404.
Definition StatusPreconditionFailed : Z := 412.
Definition StatusInternalServerError : Z := 500.

(** The [If-None-Match] header of a request as [checkIfNoneMatch]
    scans it: absent, the wildcard, or a list of entity tags, each as
    written in the header with its quotes and its [W/] prefix if any. *)
Inductive IfNoneMatch :=
| inmAbsent
| inmAny
| inmTags (tags : list string).

(** The part of an [*http.Request] the handlers and [ServeContent]
    read.  Requests carry no [If-Match], [If-Unmodified-Since],
    [If-Modified-Since] or [Range] header: what [ServeContent] does
    with those is outside this model. *)
Record Request := mkRequest {
  Method : string;
  URLPath : string;
  INM : IfNoneMatch
}.

(** What a handler has done to its [http.ResponseWriter]: the header
    map, the status code written (0 while none is) and the bytes
    written to the body. *)
Record ResponseWriter := mkResponseWriter {
  Header : gmap string (list string);
  Status : Z;
  Body : string
}.

(** A fresh response writer. *)
Definition NewRecorder : ResponseWriter := mkResponseWriter ∅ 0 "".

(** An [http.Handler]: its [ServeHTTP] method, which leaves its
    effects on the response writer. *)
Definition Handler := ResponseWriter -> Request -> ResponseWriter.

Definition upper (c : ascii) : ascii :=
  let n := N_of_ascii c in
  if ((97 <=? n) && (n <=? 122))%N then ascii_of_N (n - 32) else c.

Definition lower (c : ascii) : ascii :=
  let n := N_of_ascii c in
  if ((65 <=? n) && (n <=? 90))%N then ascii_of_N (n + 32) else c.

Fixpoint canonical (up : bool) (s : string) : string :=
  match s with
  | EmptyString => EmptyString
  | String c s' =>
      String (if up then upper c else lower c) (canonical (Ascii.eqb c "-") s')
  end.

(** [textproto.CanonicalMIMEHeaderKey] on a header name made of token
    characters: the first letter and every letter after a hyphen in
    upper case, the others in lower case. *)
Definition CanonicalHeaderKey (k : string) : string := canonical true k.

(** [w.Header().Add(k, v)] *)
Definition Add (w : ResponseWriter) (k v : string) : ResponseWriter :=
  let key := CanonicalHeaderKey k in
  mkResponseWriter (<[key := default [] (Header w !! key) ++ [v]]> (Header w))
                   (Status w) (Body w).

(** [w.Header().Set(k, v)] *)
Definition Set_ (w : ResponseWriter) (k v : string) : ResponseWriter :=
  mkResponseWriter (<[CanonicalHeaderKey k := [v]]> (Header w)) (Status w) (Body w).

(** [w.Header().Del(k)] *)
Definition Del (w : ResponseWriter) (k : string) : ResponseWriter :=
  mkResponseWriter (delete (CanonicalHeaderKey k) (Header w)) (Status w) (Body w).

(** [w.Header().Values(k)] *)
Definition Values (w : ResponseWriter) (k : string) : list string :=
  default [] (Header w !! CanonicalHeaderKey k).

(** [w.Header().Get(k)]: the first value, or the empty string. *)
Definition Get (w : ResponseWriter) (k : string) : string :=
  match Values w k with v :: _ => v | [] => "" end.

(** [w.WriteHeader(code)]: only the first call counts. *)
Definition WriteHeader (w : ResponseWriter) (code : Z) : ResponseWriter :=
  if Status w =? 0 then mkResponseWriter (Header w) code (Body w) else w.

(** [w.Write(b)]: writes the status 200 first when none was. *)
Definition Write (w : ResponseWriter) (b : string) : ResponseWriter :=
  let w := WriteHeader w StatusOK in
  mkResponseWriter (Header w) (Status w) (Body w +:+ b).

(** The line feed [fmt.Fprintln] ends its output with. *)
Definition newline : string := String "010"%char EmptyString.

(** [http.Error(w, error, code)] *)
Definition Error (w : ResponseWriter) (msg : string) (code : Z) : ResponseWriter :=
  let w := Del w "Content-Length" in
  let w := Set_ w "Content-Type" "text/plain; charset=utf-8" in
  let w := Set_ w "X-Content-Type-Options" "nosniff" in
  let w := WriteHeader w code in
  Write w (msg +:+ newline).

Inductive condResult := condNone | condTrue | condFalse.

(** [etagWeakMatch(a, b)] *)
Definition etagWeakMatch (a b : string) : bool :=
  bool_decide (strings.TrimPrefix a "W/" = strings.TrimPrefix b "W/").

(** [checkIfNoneMatch(w, r)] *)
Definition checkIfNoneMatch (w : ResponseWriter) (r : Request) : condResult :=
  match INM r with
  | inmAbsent => condNone
  | inmAny => condFalse
  | inmTags tags =>
      if existsb (fun t => etagWeakMatch t (Get w "Etag")) tags then condFalse
      else condTrue
  end.

(** The Unix epoch, which [isZeroTime] also takes for unset. *)
Definition unixEpochTime : time.Time := time.mkTime 62135596800 0 0.

Definition isZeroTime (t : time.Time) : bool :=
  time.IsZero t
  || ((time.sec t =? time.sec unixEpochTime) && (time.nsec t =? 0)).

Section WithWorld.
Context `{World}.

(** [setLastModified(w, modtime)] *)
Definition setLastModified (w : ResponseWriter) (modtime : time.Time) : ResponseWriter :=
  if isZeroTime modtime then w else Set_ w "Last-Modified" (httpTimeFormat modtime).

(** [writeNotModified(w)] *)
Definition writeNotModified (w : ResponseWriter) : ResponseWriter :=
  let w := Del w "Content-Type" in
  let w := Del w "Content-Length" in
  let w := Del w "Content-Encoding" in
  let w := if bool_decide (Get w "Etag" = "") then w else Del w "Last-Modified" in
  WriteHeader w StatusNotModified.

(** [http.ServeContent(w, r, name, modtime, content)] on a request
    of the model and a stream that seeks and reads without error:
    the precondition on [If-None-Match], then the whole content. *)
Definition ServeContent (w : ResponseWriter) (r : Request) (name : string)
           (modtime : time.Time) (content : string) : ResponseWriter :=
  let w := setLastModified w modtime in
  match checkIfNoneMatch w r with
  | condFalse =>
      if bool_decide (Method r = "GET") || bool_decide (Method r = "HEAD")
      then writeNotModified w
      else WriteHeader w StatusPreconditionFailed
  | _ =>
      let w := if bool_decide (Header w !! "Content-Type" = None)
               then Set_ w "Content-Type" (contentTypeOf name content) else w in
      let w := Set_ w "Accept-Ranges" "bytes" in
      let w := if bool_decide (Get w "Content-Encoding" = "")
               then Set_ w "Content-Length"
                          (fmt.verb_d (Z.of_nat (String.length content)))
               else w in
      let w := WriteHeader w StatusOK in
      if bool_decide (Method r = "HEAD") then w else Write w content
  end.

End WithWorld.

End http.

(** ** Package [static] *)

(** [defaultFile] is the default UI asset file that will be served if
    no other static asset matches. *)
Definition defaultFile : string := "index.html".

(** [embedBaseDir] is the prefix for files in the [embed.FS]. *)
Definition embedBaseDir : string := "data".

(** [uiBaseDir] is the directory in [embedBaseDir] where the built UI
    assets reside. *)
Definition uiBaseDir : string := "build".

(** [swaggerFile] is the name of the swagger JSON. *)
Definition swaggerFile : string := "swagger.json".

(** The double quote that opens and closes an entity tag. *)
Definition dquote : string := String "034"%char EmptyString.

(** [etag] calculates an etag string from the provided file size and
    modification time. *)
Definition etag (s : Z) (mt : time.Time) : string :=
  let '(hour, minute, second) := time.Clock mt in
  dquote +:+ fmt.verb_d s +:+ fmt.verb_d (time.Day mt) +:+ fmt.verb_d hour
         +:+ fmt.verb_d minute +:+ fmt.verb_d second +:+ dquote.

(** [openAsset] attempts to open the asset by name in the given
    directory, falling back to the default file if the named asset
    can't be found.  Next to the result it returns the names it handed
    to [fileOpener.Open], in order. *)
Definition openAsset (fileOpener : fs.FS) (dir name : string)
  : list string * Result fs.File :=
  let n1 := filepath.Join dir name in
  match fileOpener n1 with
  | Ok f => ([n1], Ok f)
  | Err err =>
      if os.IsNotExist err then
        let n2 := filepath.Join dir defaultFile in
        match fileOpener n2 with
        | Ok f => ([n1; n2], Ok f)
        | Err err => ([n1; n2], Err err)
        end
      else ([n1], Err err)
  end.

(** The name the asset handler asks for: the cleaned URL path without
    its leading slash, or the default file for the root. *)
Definition assetName (r : http.Request) : string :=
  let name := strings.TrimPrefix (path.Clean (http.URLPath r)) "/" in
  if bool_decide (name = "") then defaultFile else name.

Section Static.
Context `{World}.

(** [mwSetCacheControl] sets a default cache control header. *)
Definition mwSetCacheControl (next : http.Handler) : http.Handler :=
  fun w r => next (http.Add w "Cache-Control" "public, max-age=3600") r.

(** [modTimeFromInfo] gets the modification time from an
    [fs.FileInfo].  If this modification time is zero (for embedded
    assets), it falls back to the build time for the binary. *)
Definition modTimeFromInfo (i : fs.FileInfo) : Result time.Time :=
  let modTime := fs.ModTime i in
  if time.IsZero modTime then time_Parse time.RFC3339 BuildDate
  else Ok modTime.

(** [staticFileHandler] takes the provided [fs.File] and sets the
    ETag header prior to calling [http.ServeContent] with the
    contents of the file. *)
Definition staticFileHandler (f : fs.File) : http.Handler :=
  fun w r =>
    match fs.ReadSeeker f with
    | None =>
        http.Error w "could not open file for reading" http.StatusInternalServerError
    | Some content =>
        match fs.Stat f with
        | Err err => http.Error w (Error err) http.StatusInternalServerError
        | Ok i =>
            match modTimeFromInfo i with
            | Err err => http.Error w (Error err) http.StatusInternalServerError
            | Ok modTime =>
                let w := http.Set_ w "ETag" (etag (fs.Size i) modTime) in
                http.ServeContent w r (fs.Name i) modTime content
            end
        end
    end.

(** [assetHandler] takes an [fs.FS] and a dir name and returns a
    handler that either serves the file at that path, or the default
    file if a file cannot be found at that path. *)
Definition assetHandler (fileOpener : fs.FS) (dir : string) : http.Handler :=
  fun w r =>
    let name := assetName r in
    match snd (openAsset fileOpener dir name) with
    | Err err => http.Error w (Error err) http.StatusNotFound
    | Ok f => staticFileHandler f w r
    end.

(** [NewAssetHandler] returns an [http.Handler] to serve files from
    the provided path.  If an empty string is provided as the path,
    the files are served from the embedded assets. *)
Definition NewAssetHandler (assetsPath : string) : http.Handler :=
  mwSetCacheControl
    (if bool_decide (assetsPath <> "") then
       assetHandler (os_DirFS assetsPath) ""
     else
       assetHandler (embed.Open data) (filepath.Join embedBaseDir uiBaseDir)).

(** [NewSwaggerHandler] returns an [http.Handler] to serve the
    [swaggerFile] from the [embedBaseDir].  If the [swaggerFile] is
    not found, returns a 404. *)
Definition NewSwaggerHandler : http.Handler :=
  mwSetCacheControl
    (fun w r =>
       match embed.Open data (filepath.Join embedBaseDir swaggerFile) with
       | Err err => http.Error w (Error err) http.StatusNotFound
       | Ok f => staticFileHandler f w r
       end).

End Static.

(** ** The handlers over any request and any content-serving function

    The handlers read one thing of the request, its URL path, and they
    leave the transfer of the file to [http.ServeContent], to which
    they pass the request whole.  Here they are once more, with the
    type of requests, the URL path of a request and the function that
    serves the content as parameters: what is proved of them holds for
    requests with any header and for whatever [http.ServeContent] does
    with them. *)

(** The name the asset handler asks for, from the URL path. *)
Definition nameOfPath (p : string) : string :=
  let name := strings.TrimPrefix (path.Clean p) "/" in
  if bool_decide (name = "") then defaultFile else name.

Module generic.
Section Generic.
Context `{World} {Request : Type}.

(** [r.URL.Path] *)
Variable URLPath : Request -> string.

(** [http.ServeContent] *)
Variable ServeContent :
  http.ResponseWriter -> Request -> string -> time.Time -> string -> http.ResponseWriter.

Definition Handler := http.ResponseWriter -> Request -> http.ResponseWriter.

(** [mwSetCacheControl] *)
Definition mwSetCacheControl (next : Handler) : Handler :=
  fun w r => next (http.Add w "Cache-Control" "public, max-age=3600") r.

(** [staticFileHandler] *)
Definition staticFileHandler (f : fs.File) : Handler :=
  fun w r =>
    match fs.ReadSeeker f with
    | None =>
        http.Error w "could not open file for reading" http.StatusInternalServerError
    | Some content =>
        match fs.Stat f with
        | Err err => http.Error w (Error err) http.StatusInternalServerError
        | Ok i =>
            match modTimeFromInfo i with
            | Err err => http.Error w (Error err) http.StatusInternalServerError
            | Ok modTime =>
                let w := http.Set_ w "ETag" (etag (fs.Size i) modTime) in
                ServeContent w r (fs.Name i) modTime content
            end
        end
    end.

(** [assetHandler] *)
Definition assetHandler (fileOpener : fs.FS) (dir : string) : Handler :=
  fun w r =>
    let name := nameOfPath (URLPath r) in
    match snd (openAsset fileOpener dir name) with
    | Err err => http.Error w (Error err) http.StatusNotFound
    | Ok f => staticFileHandler f w r
    end.

(** [NewAssetHandler] *)
Definition NewAssetHandler (assetsPath : string) : Handler :=
  mwSetCacheControl
    (if bool_decide (assetsPath <> "") then
       assetHandler (os_DirFS assetsPath) ""
     else
       assetHandler (embed.Open data) (filepath.Join embedBaseDir uiBaseDir)).

(** [NewSwaggerHandler] *)
Definition NewSwaggerHandler : Handler :=
  mwSetCacheControl
    (fun w r =>
       match embed.Open data (filepath.Join embedBaseDir swaggerFile) with
       | Err err => http.Error w (Error err) http.StatusNotFound
       | Ok f => staticFileHandler f w r
       end).

End Generic.
End generic.

(** A content-serving function that leaves the header [k] as the
    handler set it. *)
Definition keepsHeader {Request : Type} (k : string)
           (serve : http.ResponseWriter -> Request -> string -> time.Time -> string
                    -> http.ResponseWriter) : Prop :=
  forall w r name modtime content,
    http.Values (serve w r name modtime content) k = http.Values w k.

(** A URL path as the HTTP server hands it to a handler: rooted, or
    empty (a request in absolute form without a path), or the asterisk
    of [OPTIONS *]. *)
Definition deliverable (p : string) : Prop :=
  strings.HasPrefix p "/" = true \/ p = "" \/ p = "*".

(** The name of a directory itself, as [filepath.Join] gives it: the
    empty directory is the root [.] of the file system. *)
Definition rootOf (dir : string) : string := if decide (dir = "") then "." else dir.

(** ** A concrete world

    One build of the binary and one assets directory, to run the
    handlers on: an embedded tree with the UI under [data/build] and
    the swagger document next to it, a directory [/srv/ui] on disk, and
    a build date. *)
Module sample.

Definition parseError (value : string) : error :=
  mkError ("parsing time " +:+ value +:+ ": cannot parse as " +:+ time.RFC3339) Other.

Fixpoint number (acc : Z) (cs : list ascii) : option Z :=
  match cs with
  | [] => Some acc
  | c :: cs' =>
      match Ascii.is_nat c with
      | Some d => number (acc * 10 + Z.of_nat d) cs'
      | None => None
      end
  end.

Definition daysIn (month year : Z) : Z :=
  if (month =? 2) && time.isLeap year then 29
  else time.daysBefore month - time.daysBefore (month - 1).

(** [time.Parse] on the UTC form of RFC 3339 that a build script
    writes, [2006-01-02T15:04:05Z]; every other text is refused. *)
Definition Parse (layout value : string) : Result time.Time :=
  match list_ascii_of_string value with
  | [y1; y2; y3; y4; c1; m1; m2; c2; d1; d2; c3; h1; h2; c4; n1; n2; c5; s1; s2; c6] =>
      if bool_decide (layout = time.RFC3339)
         && bool_decide ([c1; c2; c3; c4; c5; c6]
                         = ["-"; "-"; "T"; ":"; ":"; "Z"]%char)
      then
        match number 0 [y1; y2; y3; y4], number 0 [m1; m2], number 0 [d1; d2],
              number 0 [h1; h2], number 0 [n1; n2], number 0 [s1; s2] with
        | Some y, Some m, Some d, Some h, Some n, Some s =>
            if (1 <=? m) && (m <=? 12) && (1 <=? d) && (d <=? daysIn m y)
               && (h <? 24) && (n <? 60) && (s <? 60)
            then Ok (time.Date y m d h n s)
            else Err (parseError value)
        | _, _, _, _, _, _ => Err (parseError value)
        end
      else Err (parseError value)
  | _ => Err (parseError value)
  end.

Definition pad2 (x : Z) : string :=
  if x <? 10 then "0" +:+ fmt.verb_d x else fmt.verb_d x.

Definition pad4 (x : Z) : string :=
  if x <? 10 then "000" +:+ fmt.verb_d x
  else if x <? 100 then "00" +:+ fmt.verb_d x
  else if x <? 1000 then "0" +:+ fmt.verb_d x
  else fmt.verb_d x.

(** [t.UTC().Format("Mon, 02 Jan 2006 15:04:05 GMT")]. *)
Definition TimeFormat (t : time.Time) : string :=
  let u := time.mkTime (time.sec t) (time.nsec t) 0 in
  let '(year, month, day) := time.absDate u in
  let '(hour, min, s) := time.Clock u in
  let weekday := (time.abs u / time.secondsPerDay) mod 7 in
  nth (Z.to_nat weekday) ["Mon"; "Tue"; "Wed"; "Thu"; "Fri"; "Sat"; "Sun"] ""
  +:+ ", " +:+ pad2 day +:+ " "
  +:+ nth (Z.to_nat (month - 1))
          ["Jan"; "Feb"; "Mar"; "Apr"; "May"; "Jun";
           "Jul"; "Aug"; "Sep"; "Oct"; "Nov"; "Dec"] ""
  +:+ " " +:+ pad4 year +:+ " "
  +:+ pad2 hour +:+ ":" +:+ pad2 min +:+ ":" +:+ pad2 s +:+ " GMT".

Definition hasSuffix (s suffix : string) : bool :=
  String.prefix (String.rev suffix) (String.rev s).

Definition typeOf (name content : string) : string :=
  if hasSuffix name ".html" then "text/html; charset=utf-8"
  else if hasSuffix name ".js" then "text/javascript; charset=utf-8"
  else if hasSuffix name ".json" then "application/json"
  else "application/octet-stream".

Definition indexHTML : string := "<html>ui</html>".
Definition appJS : string := "console.log(1)".
Definition swaggerJSON : string := "{}".

(** The tree [go:embed data/*] records. *)
Definition bundle : embed.FS :=
  [ embed.mkfile "data/" "";
    embed.mkfile "data/build/" "";
    embed.mkfile "data/swagger.json" swaggerJSON;
    embed.mkfile "data/build/index.html" indexHTML;
    embed.mkfile "data/build/static/" "";
    embed.mkfile "data/build/static/app.js" appJS ].

(** A build without the UI and without the swagger document. *)
Definition emptyBundle : embed.FS := [ embed.mkfile "data/" "" ].

(** A build with the UI but without the swagger document. *)
Definition uiOnly : embed.FS :=
  [ embed.mkfile "data/" "";
    embed.mkfile "data/build/" "";
    embed.mkfile "data/build/index.html" indexHTML ].

Definition modified : time.Time := time.Date 2021 3 15 10 20 30.

Definition regular (name content : string) (mt : time.Time) : fs.File :=
  fs.mkFile (Ok (fs.mkFileInfo name (Z.of_nat (String.length content)) mt false))
            (Some content).

(** A file system given by a table, as [fstest.MapFS]: an invalid
    name and a name outside the table fail; a table entry is either an
    open file or the error its [Open] fails with. *)
Definition tableFS (table : list (string * Result fs.File)) : fs.FS := fun n =>
  if negb (fs.ValidPath n) then Err (fs.PathError "open" n "invalid argument" Invalid)
  else match List.find (fun e => bool_decide (fst e = n)) table with
       | Some e => snd e
       | None => Err (fs.PathError "open" n "no such file or directory" NotExist)
       end.

(** The directory [/srv/ui]: the UI and a key file the server may not
    read. *)
Definition disk : fs.FS :=
  tableFS [ ("index.html", Ok (regular "index.html" indexHTML modified));
            ("app.js", Ok (regular "app.js" appJS modified));
            ("secret.key",
             Err (fs.PathError "open" "secret.key" "permission denied" Permission)) ].

Definition DirFS (dir : string) : fs.FS :=
  if bool_decide (dir = "/srv/ui") then disk else tableFS [].

(** The world of a binary built at [date] with the tree [tree]. *)
Definition world (date : string) (tree : embed.FS) : World :=
  {| BuildDate := date;
     time_Parse := Parse;
     data := tree;
     os_DirFS := DirFS;
     contentTypeOf := typeOf;
     httpTimeFormat := TimeFormat |}.

Definition release : World := world "2021-03-14T09:26:53Z" bundle.

(** A binary whose build date was left empty. *)
Definition undated : World := world "" bundle.

Definition get (p : string) : http.Request := http.mkRequest "GET" p http.inmAbsent.

(** The handle [Open] returns for an embedded file. *)
Definition embedded (name content : string) : fs.File :=
  regular name content time.zero.

Definition buildTime : time.Time := time.Date 2021 3 14 9 26 53.

End sample.

(** ** The component [TableOptions] of the dashboard UI

    The class of [ui/src/dashboards/components/TableOptions.tsx]: its
    getters and its event handlers.  A handler leaves its effects
    through the two callbacks of the props: it is a function from the
    props (and its arguments) to the calls it makes, in order.  A
    handler that reads a property of an undefined value throws a
    [TypeError] before it calls anything: it returns [None]. *)
Module TableOptions.

(** [interface Option] *)
Record Option := mkOption { text : string; key : string }.

(** [interface RenamableField] *)
Record RenamableField := mkField {
  internalName : string;
  displayName : string;
  visible : bool
}.

(** [interface Options].  [sortBy] may be missing at run time: [render]
    reads it as [tableOptions.sortBy || TIME_FIELD_DEFAULT]. *)
Record Options := mkOptions {
  verticalTimeAxis : bool;
  sortBy : option RenamableField;
  fixFirstColumn : bool
}.

(** What the component reads of a field of a query: its [alias]. *)
Record Field := mkQueryField { alias : string }.

(** What the component reads of a [QueryConfig]: [measurement] and
    [fields]. *)
Record QueryConfig := mkQueryConfig { measurement : string; fields : list Field }.

(** The data of [interface Props]; the three callbacks are the outputs
    of the handlers.  [fieldOptions] may be undefined: the getter
    [fieldOptions] reads it as [this.props.fieldOptions || []]. *)
Record Props := mkProps {
  queryConfigs : list QueryConfig;
  tableOptions : Options;
  fieldOptions : option (list RenamableField);
  timeFormat : string
}.

(** The argument of [handleUpdateDisplayOptions]: an object with the key
    [fieldOptions] or the key [timeFormat].  An entry of the array is
    [None] when it is [undefined]. *)
Inductive DisplayOption :=
| FieldOptions (fs : list (option RenamableField))
| TimeFormat (format : string).

(** A call of one of the callbacks of the props. *)
Inductive Call :=
| handleUpdateTableOptions (options : Options)
| handleUpdateDisplayOptions (displayOption : DisplayOption).

Global Instance Option_eq_dec : EqDecision Option.
Proof. solve_decision. Defined.
Global Instance RenamableField_eq_dec : EqDecision RenamableField.
Proof. solve_decision. Defined.
Global Instance Options_eq_dec : EqDecision Options.
Proof. solve_decision. Defined.

(** The object spreads of the handlers: [{...tableOptions, sortBy}] and
    the like. *)
Definition withSortBy (o : Options) (s : RenamableField) : Options :=
  mkOptions (verticalTimeAxis o) (Some s) (fixFirstColumn o).

Definition withVerticalTimeAxis (o : Options) (v : bool) : Options :=
  mkOptions v (sortBy o) (fixFirstColumn o).

Definition withFixFirstColumn (o : Options) (v : bool) : Options :=
  mkOptions (verticalTimeAxis o) (sortBy o) v.

(** [a || b] on strings: the empty string is falsy. *)
Definition orElse (a b : string) : string := if bool_decide (a = "") then b else a.

(** The predicate [c => c.internalName === name] of the searches. *)
Definition named (name : string) (c : RenamableField) : bool :=
  bool_decide (internalName c = name).

Section WithTimeFieldDefault.

(** The constant [TIME_FIELD_DEFAULT] of [shared/constants/tableGraph]. *)
Variable TIME_FIELD_DEFAULT : RenamableField.

(** [get fieldOptions()] *)
Definition getFieldOptions (p : Props) : list RenamableField :=
  default [] (fieldOptions p).

(** [get timeField()] *)
Definition timeField (p : Props) : RenamableField :=
  default TIME_FIELD_DEFAULT (List.find (named "time") (getFieldOptions p)).

(** [get computedFieldOptions()] *)
Definition computedFieldOptions (p : Props) : list RenamableField :=
  let queryFields :=
    concat
      (map (fun qc =>
              map (fun f =>
                     let internalName := measurement qc +:+ "." +:+ alias f in
                     let existing := List.find (named internalName) (getFieldOptions p) in
                     default (mkField internalName "" true) existing)
                  (fields qc))
           (queryConfigs p)) in
  timeField p :: queryFields.

(** [componentWillMount()] *)
Definition componentWillMount (p : Props) : list Call :=
  [handleUpdateDisplayOptions (FieldOptions (Some <$> computedFieldOptions p))].

(** [shouldComponentUpdate(nextProps)] *)
Definition shouldComponentUpdate (p nextProps : Props) : bool :=
  negb (bool_decide (tableOptions p = tableOptions nextProps)).

(** The constant [tableSortByOptions] of [render()]. *)
Definition tableSortByOptions (p : Props) : option (list Option) :=
  match fieldOptions p with
  | None => None
  | Some fieldOptions =>
      Some (map (fun field =>
                   mkOption (orElse (displayName field) (internalName field))
                            (internalName field))
                fieldOptions)
  end.

(** [moveField(dragIndex, hoverIndex)], on indices that are natural
    numbers. *)
Definition moveField (p : Props) (dragIndex hoverIndex : nat) : option (list Call) :=
  match fieldOptions p with
  | None => None
  | Some fieldOptions =>
      let fields :=
        if (1 <? length fieldOptions)%nat then fieldOptions else computedFieldOptions p in
      let dragField := fields !! dragIndex in
      let removedFields := take dragIndex fields ++ drop (dragIndex + 1) fields in
      let addedFields :=
        (Some <$> take hoverIndex removedFields)
          ++ [dragField]
          ++ (Some <$> drop hoverIndex removedFields) in
      Some [handleUpdateDisplayOptions (FieldOptions addedFields)]
  end.

(** [handleChooseSortBy(option)] *)
Definition handleChooseSortBy (p : Props) (opt : Option) : list Call :=
  let sortBy :=
    mkField (key opt)
            (if bool_decide (text opt = key opt) then "" else text opt)
            true in
  [handleUpdateTableOptions (withSortBy (tableOptions p) sortBy)].

(** [handleTimeFormatChange(timeFormat)] *)
Definition handleTimeFormatChange (p : Props) (timeFormat : string) : list Call :=
  [handleUpdateDisplayOptions (TimeFormat timeFormat)].

(** [handleToggleVerticalTimeAxis(verticalTimeAxis)()] *)
Definition handleToggleVerticalTimeAxis (p : Props) (verticalTimeAxis : bool) : list Call :=
  [handleUpdateTableOptions (withVerticalTimeAxis (tableOptions p) verticalTimeAxis)].

(** [handleToggleFixFirstColumn()] *)
Definition handleToggleFixFirstColumn (p : Props) : list Call :=
  let fixFirstColumn := negb (fixFirstColumn (tableOptions p)) in
  [handleUpdateTableOptions (withFixFirstColumn (tableOptions p) fixFirstColumn)].

(** [handleFieldUpdate(field)] *)
Definition handleFieldUpdate (p : Props) (field : RenamableField) : option (list Call) :=
  match fieldOptions p, sortBy (tableOptions p) with
  | Some fieldOptions, Some sortBy =>
      let updatedFields :=
        map (fun f => if bool_decide (internalName f = internalName field) then field else f)
            fieldOptions in
      let updatedSortBy :=
        if bool_decide (internalName sortBy = internalName field)
        then mkField (internalName sortBy) (displayName field) (visible sortBy)
        else sortBy in
      Some [handleUpdateTableOptions (withSortBy (tableOptions p) updatedSortBy);
            handleUpdateDisplayOptions (FieldOptions (Some <$> updatedFields))]
  | _, _ => None
  end.

End WithTimeFieldDefault.

(** The props with other table options, and with other field options:
    what the component is given once a value it passed to a callback
    comes back to it. *)
Definition withTableOptions (p : Props) (o : Options) : Props :=
  mkProps (queryConfigs p) o (fieldOptions p) (timeFormat p).

Definition withFieldOptions (p : Props) (fs : list RenamableField) : Props :=
  mkProps (queryConfigs p) (tableOptions p) (Some fs) (timeFormat p).

(** The internal names the queries give their fields:
    [measurement.alias], in order. *)
Definition queryFieldNames (qcs : list QueryConfig) : list string :=
  concat (map (fun qc => map (fun f => measurement qc +:+ "." +:+ alias f) (fields qc)) qcs).

(** The entry [computedFieldOptions] makes for an internal name: the
    field options' own entry of that name, or a new visible one. *)
Definition entryFor (p : Props) (name : string) : RenamableField :=
  default (mkField name "" true) (List.find (named name) (default [] (fieldOptions p))).

(** A string with a dot in it, as every qualified field name is. *)
Fixpoint hasDot (s : string) : bool :=
  match s with
  | EmptyString => false
  | String c s' => Ascii.eqb c "." || hasDot s'
  end.

(** The list [l] with [x] taken out at index [d] and put back at index
    [h] of what remains. *)
Definition moveTo {A : Type} (l : list A) (d h : nat) (x : A) : list A :=
  let removed := take d l ++ drop (S d) l in
  take h removed ++ x :: drop h removed.

(** The option [render] offers for a field. *)
Definition optionOf (field : RenamableField) : Option :=
  mkOption (orElse (displayName field) (internalName field)) (internalName field).

(** The sort field and the field options agree: a field option with
    the internal name of the sort field has its display name. *)
Definition sortByAgrees (o : Options) (fs : list RenamableField) : Prop :=
  forall s f, sortBy o = Some s -> In f fs -> internalName f = internalName s ->
              displayName f = displayName s.

End TableOptions.

(** ** A concrete table

    A table over one query with two fields, whose second field the user
    has renamed, hidden and chosen to sort by. *)
Module sampleTable.

Definition time : TableOptions.RenamableField := TableOptions.mkField "time" "" true.
Definition user : TableOptions.RenamableField :=
  TableOptions.mkField "cpu.usage_user" "" true.
Definition idle : TableOptions.RenamableField :=
  TableOptions.mkField "cpu.usage_idle" "idle" false.

Definition options : TableOptions.Options :=
  TableOptions.mkOptions true (Some (TableOptions.mkField "cpu.usage_idle" "idle" true)) false.

Definition queries : list TableOptions.QueryConfig :=
  [TableOptions.mkQueryConfig "cpu" [TableOptions.mkQueryField "usage_user";
                                     TableOptions.mkQueryField "usage_idle"]].

(** The props before the field options were computed for the first
    time, and after. *)
Definition fresh : TableOptions.Props :=
  TableOptions.mkProps queries options (Some [idle]) "".

Definition props : TableOptions.Props :=
  TableOptions.mkProps queries options (Some [time; user; idle]) "".

End sampleTable.

(** ** Vocabulary of the statements *)

(** A string without a separator. *)
Fixpoint noSlash (e : string) : bool :=
  match e with
  | EmptyString => true
  | String c e' => negb (Ascii.eqb c "/") && noSlash e'
  end.

(** A real path element: accepted by [fs.ValidPath] and free of
    separators. *)
Definition real (e : string) : Prop := fs.validElem e = true /\ noSlash e = true.

(** A name below a directory; the empty directory is the root of the
    file system itself. *)
Definition under (dir n : string) : string :=
  if decide (dir = "") then n else dir +:+ "/" +:+ n.

(** A header that the named operations leave alone. *)
Definition apart (k : string) (ks : list string) : Prop :=
  Forall (fun k' => http.CanonicalHeaderKey k' <> http.CanonicalHeaderKey k) ks.

(** The headers the handlers and the functions they call write or
    delete. *)
Definition handlerKeys : list string :=
  ["ETag"; "Last-Modified"; "Content-Type"; "Content-Length";
   "Content-Encoding"; "Accept-Ranges"; "X-Content-Type-Options"].

(** The fields [etag] prints: the size, then the day of the month, the
    hour, the minute and the second of the modification time. *)
Definition etagFields (s : Z) (mt : time.Time) : list Z :=
  let '(hour, minute, second) := time.Clock mt in
  [s; time.Day mt; hour; minute; second].

(** Integers printed with [%d], one after the other. *)
Definition digits (l : list Z) : string :=
  foldr (fun x acc => fmt.verb_d x +:+ acc) "" l.

(** The request [r] with another URL path. *)
Definition withPath (r : http.Request) (p : string) : http.Request :=
  http.mkRequest (http.Method r) p (http.INM r).

(** A parent element of a relative path. *)
Definition isDotDot (e : string) : Prop := e = "..".

(** Two response writers that differ at most in the header [k]. *)
Definition agreeBut (k : string) (w w' : http.ResponseWriter) : Prop :=
  http.Status w = http.Status w'
  /\ http.Body w = http.Body w'
  /\ forall k', k' <> http.CanonicalHeaderKey k -> http.Header w !! k' = http.Header w' !! k'.

(** The characters [%d] prints. *)
Definition isDigitOrMinus (c : ascii) : bool :=
  match Ascii.is_nat c with
  | Some _ => true
  | None => Ascii.eqb c "-"
  end.

Fixpoint allChars (P : ascii -> bool) (s : string) : bool :=
  match s with
  | EmptyString => true
  | String c s' => P c && allChars P s'
  end.

(** * Properties *)

(** ** The library functions on concrete inputs *)

Example Clean_rooted_path : path.Clean "/a/../../b/./c//d/" = "/b/c/d".
Proof. reflexivity. Qed.

Example Clean_relative_path : path.Clean "a/../../b" = "../b".
Proof. reflexivity. Qed.

Example Clean_corner_cases :
  path.Clean "/.." = "/" /\ path.Clean "" = "." /\ path.Clean "a/.." = ".".
Proof. repeat split; reflexivity. Qed.

Example Join_examples :
  filepath.Join "data" "build" = "data/build"
  /\ filepath.Join "" "index.html" = "index.html"
  /\ filepath.Join "data/build" "../swagger.json" = "data/swagger.json".
Proof. repeat split; reflexivity. Qed.

Example TrimPrefix_examples :
  strings.TrimPrefix "/a/b" "/" = "a/b"
  /\ strings.TrimPrefix "a/b" "/" = "a/b"
  /\ strings.TrimPrefix "/" "/" = "".
Proof. repeat split; reflexivity. Qed.

Example ValidPath_examples :
  fs.ValidPath "data/build/index.html" = true
  /\ fs.ValidPath "." = true
  /\ fs.ValidPath "../etc/passwd" = false
  /\ fs.ValidPath "/etc/passwd" = false
  /\ fs.ValidPath "a//b" = false
  /\ fs.ValidPath "" = false.
Proof. repeat split; reflexivity. Qed.

Example Date_and_Clock :
  time.absDate (time.Date 2021 3 15 10 20 30) = (2021, 3, 15)
  /\ time.Clock (time.Date 2021 3 15 10 20 30) = (10, 20, 30).
Proof. split; reflexivity. Qed.

Example absDate_leap_years :
  time.absDate (time.Date 2020 2 29 0 0 0) = (2020, 2, 29)
  /\ time.absDate (time.Date 2020 12 31 23 59 59) = (2020, 12, 31)
  /\ time.absDate (time.Date 2000 3 1 0 0 0) = (2000, 3, 1)
  /\ time.absDate (time.Date 1900 3 1 0 0 0) = (1900, 3, 1)
  /\ time.absDate time.zero = (1, 1, 1).
Proof. repeat split; reflexivity. Qed.

(* 1970-01-01 is 62135596800 seconds after the epoch of year 1. *)
Example unix_epoch : time.Date 1970 1 1 0 0 0 = http.unixEpochTime.
Proof. reflexivity. Qed.

Example Parse_build_date :
  sample.Parse time.RFC3339 "2021-03-14T09:26:53Z" = Ok sample.buildTime
  /\ sample.Parse time.RFC3339 "" = Err (sample.parseError "")
  /\ sample.Parse time.RFC3339 "2021-02-30T09:26:53Z"
     = Err (sample.parseError "2021-02-30T09:26:53Z").
Proof. repeat split; reflexivity. Qed.

Example TimeFormat_example :
  sample.TimeFormat sample.modified = "Mon, 15 Mar 2021 10:20:30 GMT".
Proof. reflexivity. Qed.

Example CanonicalHeaderKey_examples :
  http.CanonicalHeaderKey "ETag" = "Etag"
  /\ http.CanonicalHeaderKey "cache-control" = "Cache-Control".
Proof. split; reflexivity. Qed.

Example etag_example : etag 14 sample.modified = dquote +:+ "1415102030" +:+ dquote.
Proof. reflexivity. Qed.

(** ** Strings, [strings.Split] and [strings.Join] *)

Lemma append_cons (c : ascii) (a b : string) : String c a +:+ b = String c (a +:+ b).
Proof. reflexivity. Qed.

Lemma append_nil_l (b : string) : "" +:+ b = b.
Proof. reflexivity. Qed.

Lemma append_nil_r (s : string) : s +:+ "" = s.
Proof. induction s as [|c s IH]; [done | by rewrite append_cons, IH]. Qed.

Lemma append_assoc (a b c : string) : (a +:+ b) +:+ c = a +:+ b +:+ c.
Proof. induction a as [|x a IH]; [done | by rewrite !append_cons, IH]. Qed.

Lemma append_length (a b : string) :
  String.length (a +:+ b) = (String.length a + String.length b)%nat.
Proof. induction a as [|x a IH]; [done | rewrite append_cons; simpl; by rewrite IH]. Qed.

(** A common suffix cancels. *)
Lemma append_inv_tail (a b c : string) : a +:+ c = b +:+ c -> a = b.
Proof.
  revert b. induction a as [|x a IH]; intros [|y b] Heq.
  - done.
  - apply (f_equal String.length) in Heq.
    rewrite append_nil_l, append_cons in Heq. simpl in Heq.
    rewrite append_length in Heq. lia.
  - apply (f_equal String.length) in Heq.
    rewrite append_nil_l, append_cons in Heq. simpl in Heq.
    rewrite append_length in Heq. lia.
  - rewrite !append_cons in Heq. injection Heq as -> Heq. f_equal. by apply IH.
Qed.

Lemma substring_all (s : string) : String.substring 0 (String.length s) s = s.
Proof. induction s as [|c s IH]; simpl; [done | by rewrite IH]. Qed.

Lemma HasPrefix_slash (p : string) :
  strings.HasPrefix p "/" = true -> exists q, p = String "/" q.
Proof.
  destruct p as [|c q]; simpl; [done|].
  rewrite andb_true_r. intros ->%Ascii.eqb_eq. eauto.
Qed.

Lemma TrimPrefix_slash (q : string) : strings.TrimPrefix (String "/" q) "/" = q.
Proof.
  unfold strings.TrimPrefix. simpl.
  destruct q as [|c q]; simpl; [done|].
  by rewrite substring_all.
Qed.

Lemma SplitSlash_not_nil (s : string) : strings.SplitSlash s <> [].
Proof.
  induction s as [|c s IH]; simpl; [done|].
  destruct (Ascii.eqb c "/"); [done|]. by destruct (strings.SplitSlash s).
Qed.

Lemma SplitSlash_noSlash (s : string) : Forall (fun e => noSlash e = true) (strings.SplitSlash s).
Proof.
  induction s as [|c s IH]; simpl.
  - by repeat constructor.
  - destruct (Ascii.eqb c "/") eqn:Hc.
    + by constructor.
    + pose proof (SplitSlash_not_nil s) as Hne.
      destruct (strings.SplitSlash s) as [|e es]; [done|].
      inversion IH; subst. constructor; [|done]. simpl. by rewrite Hc.
Qed.

Lemma JoinSlash_cons (e e' : string) (es : list string) :
  strings.JoinSlash (e :: e' :: es) = e +:+ "/" +:+ strings.JoinSlash (e' :: es).
Proof. reflexivity. Qed.

(** Joining what was split gives the string back. *)
Lemma JoinSlash_SplitSlash (s : string) : strings.JoinSlash (strings.SplitSlash s) = s.
Proof.
  induction s as [|c s IH]; simpl; [done|].
  pose proof (SplitSlash_not_nil s) as Hne.
  destruct (Ascii.eqb c "/") eqn:Hc.
  - apply Ascii.eqb_eq in Hc as ->.
    destruct (strings.SplitSlash s) as [|e es]; [done|].
    by rewrite JoinSlash_cons, IH.
  - destruct (strings.SplitSlash s) as [|e es]; [done|].
    destruct es as [|e' es].
    + simpl in *. by rewrite IH.
    + rewrite JoinSlash_cons in *. by rewrite append_cons, IH.
Qed.

Lemma SplitSlash_noSlash_id (e : string) : noSlash e = true -> strings.SplitSlash e = [e].
Proof.
  induction e as [|c e IH]; simpl; [done|].
  intros [Hc He]%andb_true_iff. apply negb_true_iff in Hc. rewrite Hc.
  by rewrite IH.
Qed.

Lemma SplitSlash_String (c : ascii) (s : string) :
  strings.SplitSlash (String c s)
  = if Ascii.eqb c "/" then "" :: strings.SplitSlash s
    else match strings.SplitSlash s with
         | e :: es => String c e :: es
         | [] => [String c ""]
         end.
Proof. reflexivity. Qed.

Lemma SplitSlash_cons (e s : string) :
  noSlash e = true ->
  strings.SplitSlash (e +:+ "/" +:+ s) = e :: strings.SplitSlash s.
Proof.
  induction e as [|c e IH]; [done|].
  intros Hn. simpl in Hn. apply andb_true_iff in Hn as [Hc He].
  apply negb_true_iff in Hc.
  by rewrite append_cons, SplitSlash_String, Hc, IH.
Qed.

(** Splitting what was joined gives the elements back. *)
Lemma SplitSlash_JoinSlash (es : list string) :
  es <> [] -> Forall (fun e => noSlash e = true) es ->
  strings.SplitSlash (strings.JoinSlash es) = es.
Proof.
  induction es as [|e es IH]; [done|]. intros _ Hall.
  inversion Hall as [|? ? He Hes]; subst.
  destruct es as [|e' es].
  - simpl. by apply SplitSlash_noSlash_id.
  - rewrite JoinSlash_cons, SplitSlash_cons by done. f_equal. by apply IH.
Qed.

Lemma SplitSlash_app (a b : string) :
  strings.SplitSlash (a +:+ "/" +:+ b) = strings.SplitSlash a ++ strings.SplitSlash b.
Proof.
  induction a as [|c a IH]; [done|].
  rewrite append_cons, !SplitSlash_String, IH.
  destruct (Ascii.eqb c "/"); [done|].
  pose proof (SplitSlash_not_nil a).
  by destruct (strings.SplitSlash a).
Qed.

(** ** [path.Clean], [filepath.Join] and [fs.ValidPath] *)

Lemma validElem_true (e : string) :
  fs.validElem e = true <-> e <> "" /\ e <> "." /\ e <> "..".
Proof.
  unfold fs.validElem. rewrite negb_true_iff, !orb_false_iff, !bool_decide_eq_false.
  tauto.
Qed.

Lemma step_push (rooted : bool) (out : list string) (e : string) :
  fs.validElem e = true -> path.step rooted out e = e :: out.
Proof.
  intros (H1 & H2 & H3)%validElem_true. unfold path.step.
  by rewrite !decide_False by done.
Qed.

(** Over real elements the scan of [path.Clean] only appends. *)
Lemma fold_step_push (rooted : bool) (l out : list string) :
  forallb fs.validElem l = true ->
  fold_left (path.step rooted) l out = rev l ++ out.
Proof.
  revert out. induction l as [|e l IH]; intros out Hall; simpl in *; [done|].
  apply andb_true_iff in Hall as [He Hl].
  rewrite step_push by done. rewrite IH by done. by rewrite <- app_assoc.
Qed.

(** At the root the scan never appends a [..]: the buffer holds real
    elements only. *)
Lemma step_rooted_real (out : list string) (e : string) :
  noSlash e = true -> Forall real out -> Forall real (path.step true out e).
Proof.
  intros He Hout. unfold path.step.
  destruct (decide (e = "")); [done|].
  destruct (decide (e = ".")); [done|].
  destruct (decide (e = "..")) as [->|].
  - destruct out as [|top rest]; [done|].
    destruct (decide (top = "..")); [done|]. by inversion Hout.
  - constructor; [|done]. split; [|done]. by apply validElem_true.
Qed.

Lemma fold_step_rooted_real (l out : list string) :
  Forall (fun e => noSlash e = true) l -> Forall real out ->
  Forall real (fold_left (path.step true) l out).
Proof.
  revert out. induction l as [|e l IH]; intros out Hl Hout; simpl; [done|].
  inversion Hl; subst. apply IH; [done|]. by apply step_rooted_real.
Qed.

(** The clean form of a rooted path: the root followed by real
    elements. *)
Lemma Clean_rooted (q : string) :
  exists es, Forall real es /\ path.Clean (String "/" q) = "/" +:+ strings.JoinSlash es.
Proof.
  exists (rev (fold_left (path.step true) (strings.SplitSlash (String "/" q)) [])).
  split.
  - apply Forall_rev, fold_step_rooted_real; [apply SplitSlash_noSlash | constructor].
  - unfold path.Clean. by rewrite decide_False by done.
Qed.

Lemma real_forallb (es : list string) : Forall real es -> forallb fs.validElem es = true.
Proof. induction 1 as [|e es [He _] _ IH]; simpl; [done | by rewrite He, IH]. Qed.

Lemma real_noSlash (es : list string) :
  Forall real es -> Forall (fun e => noSlash e = true) es.
Proof. intros Hall. eapply Forall_impl; [exact Hall|]. by intros e [_ He]. Qed.

Lemma JoinSlash_real_valid (es : list string) :
  es <> [] -> Forall real es ->
  fs.ValidPath (strings.JoinSlash es) = true
  /\ strings.JoinSlash es <> "." /\ strings.JoinSlash es <> "".
Proof.
  intros Hne Hall.
  pose proof (SplitSlash_JoinSlash es Hne (real_noSlash es Hall)) as Hsplit.
  split; [|split].
  - unfold fs.ValidPath. rewrite Hsplit, (real_forallb es Hall). apply orb_true_r.
  - intros Heq. rewrite Heq in Hsplit. simpl in Hsplit. subst es.
    inversion Hall as [|? ? [Hv _] _]; subst. by vm_compute in Hv.
  - intros Heq. rewrite Heq in Hsplit. simpl in Hsplit. subst es.
    inversion Hall as [|? ? [Hv _] _]; subst. by vm_compute in Hv.
Qed.

(** A valid name other than the root has real elements only, is not
    empty and is not rooted. *)
Lemma ValidPath_elems (n : string) :
  fs.ValidPath n = true -> n <> "." ->
  forallb fs.validElem (strings.SplitSlash n) = true.
Proof.
  unfold fs.ValidPath. intros [Hdot|Hall]%orb_true_iff Hne; [|done].
  by apply bool_decide_eq_true in Hdot.
Qed.

(** [path.Clean] leaves a valid name as it is. *)
Lemma Clean_valid (n : string) :
  fs.ValidPath n = true -> n <> "." -> path.Clean n = n.
Proof.
  intros Hv Hdot. pose proof (ValidPath_elems n Hv Hdot) as Hall.
  unfold path.Clean.
  destruct (decide (n = "")) as [->|Hne]; [by vm_compute in Hall|].
  destruct (strings.HasPrefix n "/") eqn:Hroot.
  { apply HasPrefix_slash in Hroot as [q ->].
    rewrite SplitSlash_String in Hall. simpl in Hall. by vm_compute in Hall. }
  rewrite fold_step_push by done. rewrite app_nil_r, rev_involutive.
  pose proof (SplitSlash_not_nil n) as Hnil.
  rewrite decide_False.
  - apply JoinSlash_SplitSlash.
  - intros Hrev. apply Hnil. apply (f_equal (@rev string)) in Hrev.
    by rewrite rev_involutive in Hrev.
Qed.

Lemma ValidPath_under (dir n : string) :
  dir = "" \/ (fs.ValidPath dir = true /\ dir <> ".") ->
  fs.ValidPath n = true -> n <> "." ->
  fs.ValidPath (under dir n) = true /\ under dir n <> ".".
Proof.
  intros Hdir Hv Hdot. unfold under.
  destruct (decide (dir = "")) as [->|Hne]; [done|].
  destruct Hdir as [?|[Hdv Hddot]]; [done|].
  pose proof (ValidPath_elems n Hv Hdot) as Hn.
  pose proof (ValidPath_elems dir Hdv Hddot) as Hd.
  split.
  - unfold fs.ValidPath. rewrite SplitSlash_app, forallb_app, Hn, Hd. apply orb_true_r.
  - intros Heq. apply (f_equal strings.SplitSlash) in Heq.
    rewrite SplitSlash_app in Heq.
    pose proof (SplitSlash_not_nil dir). pose proof (SplitSlash_not_nil n).
    destruct (strings.SplitSlash dir) as [|? [|? ?]], (strings.SplitSlash n); by simplify_eq/=.
Qed.

(** [filepath.Join] of a clean directory and a valid name is the name
    below the directory. *)
Lemma Join_valid (dir n : string) :
  dir = "" \/ (fs.ValidPath dir = true /\ dir <> ".") ->
  fs.ValidPath n = true -> n <> "." ->
  filepath.Join dir n = under dir n.
Proof.
  intros Hdir Hv Hdot.
  destruct (ValidPath_under dir n Hdir Hv Hdot) as [Hu Hudot].
  unfold filepath.Join, under in *.
  destruct (decide (dir = "")) as [->|Hne].
  - destruct (decide (n = "")) as [->|]; [by vm_compute in Hv|].
    by apply Clean_valid.
  - by apply Clean_valid.
Qed.

(** The name the asset handler asks for, when the URL path is rooted,
    is a valid name other than the root. *)
Lemma assetName_valid (r : http.Request) :
  strings.HasPrefix (http.URLPath r) "/" = true ->
  fs.ValidPath (assetName r) = true /\ assetName r <> ".".
Proof.
  intros [q Hq]%HasPrefix_slash. unfold assetName. rewrite Hq.
  destruct (Clean_rooted q) as (es & Hes & ->).
  change ("/" +:+ strings.JoinSlash es) with (String "/" (strings.JoinSlash es)).
  rewrite TrimPrefix_slash.
  destruct es as [|e es].
  - simpl. by vm_compute.
  - destruct (JoinSlash_real_valid (e :: es)) as (Hv & Hdot & Hne); [done..|].
    by rewrite bool_decide_eq_false_2.
Qed.

(** ** Response headers, status and body *)


Lemma Values_Add_ne (w : http.ResponseWriter) (k v k' : string) :
  http.CanonicalHeaderKey k <> http.CanonicalHeaderKey k' ->
  http.Values (http.Add w k v) k' = http.Values w k'.
Proof. intros Hne. unfold http.Values, http.Add. simpl. by rewrite lookup_insert_ne. Qed.

Lemma Values_Set_eq (w : http.ResponseWriter) (k v : string) :
  http.Values (http.Set_ w k v) k = [v].
Proof. unfold http.Values, http.Set_. simpl. by rewrite lookup_insert_eq. Qed.

Lemma Values_Set_ne (w : http.ResponseWriter) (k v k' : string) :
  http.CanonicalHeaderKey k <> http.CanonicalHeaderKey k' ->
  http.Values (http.Set_ w k v) k' = http.Values w k'.
Proof. intros Hne. unfold http.Values, http.Set_. simpl. by rewrite lookup_insert_ne. Qed.

Lemma Values_Del_ne (w : http.ResponseWriter) (k k' : string) :
  http.CanonicalHeaderKey k <> http.CanonicalHeaderKey k' ->
  http.Values (http.Del w k) k' = http.Values w k'.
Proof. intros Hne. unfold http.Values, http.Del. simpl. by rewrite lookup_delete_ne. Qed.

Lemma Values_WriteHeader (w : http.ResponseWriter) (code : Z) (k : string) :
  http.Values (http.WriteHeader w code) k = http.Values w k.
Proof. unfold http.WriteHeader. by destruct (http.Status w =? 0). Qed.

Lemma Values_Write (w : http.ResponseWriter) (b k : string) :
  http.Values (http.Write w b) k = http.Values w k.
Proof. unfold http.Write, http.Values. simpl. apply Values_WriteHeader. Qed.

Ltac apart_tac :=
  match goal with
  | H : apart _ _ |- _ =>
      let H' := fresh in
      pose proof H as H'; unfold apart, handlerKeys in H';
      repeat match type of H' with
             | Forall _ (_ :: _) => apply Forall_cons_1 in H' as [? H']
             end;
      clear H'
  end.

Ltac header_simpl :=
  repeat first
    [ rewrite Values_Write
    | rewrite Values_WriteHeader
    | rewrite Values_Set_ne by done
    | rewrite Values_Del_ne by done
    | rewrite Values_Add_ne by done ].

(** [http.Error] touches three headers only. *)
Lemma Values_Error (w : http.ResponseWriter) (msg : string) (code : Z) (k : string) :
  apart k ["Content-Length"; "Content-Type"; "X-Content-Type-Options"] ->
  http.Values (http.Error w msg code) k = http.Values w k.
Proof. intros Hk. apart_tac. unfold http.Error. by header_simpl. Qed.

Lemma Status_Error (w : http.ResponseWriter) (msg : string) (code : Z) :
  http.Status w = 0 -> code <> 0 -> http.Status (http.Error w msg code) = code.
Proof.
  intros Hw Hcode. unfold http.Error, http.Write, http.WriteHeader. simpl.
  rewrite Hw. simpl. by destruct (Z.eqb_spec code 0).
Qed.

Lemma Body_Error (w : http.ResponseWriter) (msg : string) (code : Z) :
  http.Body (http.Error w msg code) = http.Body w +:+ msg +:+ http.newline.
Proof.
  unfold http.Error, http.Write, http.WriteHeader. simpl.
  by repeat (case_match; simpl).
Qed.

Section ServeContent.
Context `{World}.

(** [http.ServeContent] touches five headers only. *)
Lemma Values_ServeContent (w : http.ResponseWriter) (r : http.Request)
      (name : string) (mt : time.Time) (content k : string) :
  apart k ["Last-Modified"; "Content-Type"; "Content-Length";
           "Content-Encoding"; "Accept-Ranges"] ->
  http.Values (http.ServeContent w r name mt content) k = http.Values w k.
Proof.
  intros Hk. apart_tac.
  unfold http.ServeContent, http.writeNotModified, http.setLastModified.
  repeat (case_match; header_simpl); done.
Qed.

(** Without a precondition the whole content is served: status 200
    and, unless the method is HEAD, the content as body. *)
Lemma ServeContent_plain (w : http.ResponseWriter) (r : http.Request)
      (name : string) (mt : time.Time) (content : string) :
  http.Status w = 0 -> http.INM r = http.inmAbsent ->
  let w' := http.ServeContent w r name mt content in
  http.Status w' = http.StatusOK
  /\ http.Body w'
     = http.Body w +:+ (if bool_decide (http.Method r = "HEAD") then "" else content).
Proof.
  intros Hw Hinm. unfold http.ServeContent, http.checkIfNoneMatch. rewrite Hinm.
  unfold http.setLastModified, http.Write, http.WriteHeader.
  repeat (case_match; simpl in *); rewrite ?append_nil_r; try done; lia.
Qed.

End ServeContent.

(** ** The handlers of the package *)

Lemma openAsset_found (fileOpener : fs.FS) (dir name : string) (f : fs.File) :
  fileOpener (filepath.Join dir name) = Ok f ->
  openAsset fileOpener dir name = ([filepath.Join dir name], Ok f).
Proof. intros Hf. unfold openAsset. by rewrite Hf. Qed.

Lemma openAsset_fallback (fileOpener : fs.FS) (dir name : string) (e : error) :
  fileOpener (filepath.Join dir name) = Err e -> os.IsNotExist e = true ->
  openAsset fileOpener dir name
  = ([filepath.Join dir name; filepath.Join dir defaultFile],
     fileOpener (filepath.Join dir defaultFile)).
Proof.
  intros He Hk. unfold openAsset. rewrite He, Hk.
  by destruct (fileOpener (filepath.Join dir defaultFile)).
Qed.

Lemma openAsset_refused (fileOpener : fs.FS) (dir name : string) (e : error) :
  fileOpener (filepath.Join dir name) = Err e -> os.IsNotExist e = false ->
  openAsset fileOpener dir name = ([filepath.Join dir name], Err e).
Proof. intros He Hk. unfold openAsset. by rewrite He, Hk. Qed.

Section Handlers.
Context `{World}.

Lemma staticFileHandler_serves (f : fs.File) (i : fs.FileInfo) (content : string)
      (t : time.Time) (w : http.ResponseWriter) (r : http.Request) :
  fs.Stat f = Ok i -> fs.ReadSeeker f = Some content -> modTimeFromInfo i = Ok t ->
  staticFileHandler f w r
  = http.ServeContent (http.Set_ w "ETag" (etag (fs.Size i) t)) r (fs.Name i) t content.
Proof. intros Hi Hc Ht. unfold staticFileHandler. by rewrite Hc, Hi, Ht. Qed.

Lemma staticFileHandler_unseekable (f : fs.File) (w : http.ResponseWriter)
      (r : http.Request) :
  fs.ReadSeeker f = None ->
  staticFileHandler f w r
  = http.Error w "could not open file for reading" http.StatusInternalServerError.
Proof. intros Hc. unfold staticFileHandler. by rewrite Hc. Qed.

Lemma Values_staticFileHandler (f : fs.File) (w : http.ResponseWriter)
      (r : http.Request) (k : string) :
  apart k handlerKeys ->
  http.Values (staticFileHandler f w r) k = http.Values w k.
Proof.
  intros Hk. apart_tac. unfold staticFileHandler.
  repeat case_match;
    rewrite ?Values_Error, ?Values_ServeContent by (by repeat constructor);
    by header_simpl.
Qed.

Lemma Values_assetHandler (fileOpener : fs.FS) (dir : string)
      (w : http.ResponseWriter) (r : http.Request) (k : string) :
  apart k handlerKeys ->
  http.Values (assetHandler fileOpener dir w r) k = http.Values w k.
Proof.
  intros Hk. unfold assetHandler. case_match.
  - by apply Values_staticFileHandler.
  - apart_tac. apply Values_Error. by repeat constructor.
Qed.

(** The asset endpoint in its two configurations. *)
Lemma NewAssetHandler_embedded :
  NewAssetHandler "" = mwSetCacheControl (assetHandler (embed.Open data) "data/build").
Proof. reflexivity. Qed.

Lemma NewAssetHandler_disk (assetsPath : string) :
  assetsPath <> "" ->
  NewAssetHandler assetsPath = mwSetCacheControl (assetHandler (os_DirFS assetsPath) "").
Proof. intros Hne. unfold NewAssetHandler. by rewrite bool_decide_eq_true_2. Qed.

Lemma apart_CacheControl : apart "Cache-Control" handlerKeys.
Proof. repeat constructor; by vm_compute. Qed.

Lemma apart_ETag :
  apart "ETag" ["Last-Modified"; "Content-Type"; "Content-Length";
                "Content-Encoding"; "Accept-Ranges"].
Proof. repeat constructor; by vm_compute. Qed.

(** C1, as the code has it.  When the name the handler asks for opens
    as a file that can be read and stat'ed and whose effective
    modification time resolves, a request other than HEAD that
    carries no precondition is answered with status 200 and exactly
    the bytes of that file. *)
Theorem asset_found_served (fileOpener : fs.FS) (dir : string) (r : http.Request)
        (f : fs.File) (i : fs.FileInfo) (content : string) (t : time.Time) :
  fileOpener (filepath.Join dir (assetName r)) = Ok f ->
  fs.Stat f = Ok i -> fs.ReadSeeker f = Some content -> modTimeFromInfo i = Ok t ->
  http.Method r <> "HEAD" -> http.INM r = http.inmAbsent ->
  let w := mwSetCacheControl (assetHandler fileOpener dir) http.NewRecorder r in
  http.Status w = 200 /\ http.Body w = content.
Proof.
  intros Hf Hi Hc Ht Hm Hinm. unfold mwSetCacheControl, assetHandler.
  rewrite (openAsset_found _ _ _ _ Hf). simpl.
  rewrite (staticFileHandler_serves _ _ _ _ _ _ Hi Hc Ht).
  edestruct ServeContent_plain as [-> ->]; [|exact Hinm|]; [done|].
  by rewrite bool_decide_eq_false_2.
Qed.

(** C2, as the code has it.  When the name asked for does not exist,
    the handler opens the default document instead: if that opens as
    a readable file whose effective modification time resolves, a
    request other than HEAD without precondition gets status 200 and
    the default document's bytes; if the default document cannot be
    opened either, the response is 404 with the error text. *)
Theorem asset_missing_falls_back (fileOpener : fs.FS) (dir : string)
        (r : http.Request) (e : error) :
  fileOpener (filepath.Join dir (assetName r)) = Err e -> os.IsNotExist e = true ->
  let w := mwSetCacheControl (assetHandler fileOpener dir) http.NewRecorder r in
  (forall f i content t,
      fileOpener (filepath.Join dir defaultFile) = Ok f ->
      fs.Stat f = Ok i -> fs.ReadSeeker f = Some content -> modTimeFromInfo i = Ok t ->
      http.Method r <> "HEAD" -> http.INM r = http.inmAbsent ->
      http.Status w = 200 /\ http.Body w = content)
  /\ (forall e',
         fileOpener (filepath.Join dir defaultFile) = Err e' ->
         http.Status w = 404 /\ http.Body w = Error e' +:+ http.newline).
Proof.
  intros He Hk. unfold mwSetCacheControl, assetHandler.
  rewrite (openAsset_fallback _ _ _ _ He Hk). simpl. split.
  - intros f i content t Hf Hi Hc Ht Hm Hinm. rewrite Hf.
    rewrite (staticFileHandler_serves _ _ _ _ _ _ Hi Hc Ht).
    edestruct ServeContent_plain as [-> ->]; [|exact Hinm|]; [done|].
    by rewrite bool_decide_eq_false_2.
  - intros e' Hf. rewrite Hf. by rewrite Status_Error, Body_Error.
Qed.

End Handlers.

(** ** The entity tag *)

Lemma digits_app (l1 l2 : list Z) : digits (l1 ++ l2) = digits l1 +:+ digits l2.
Proof.
  induction l1 as [|x l1 IH]; simpl; [done|]. by rewrite IH, append_assoc.
Qed.

(** The tag is the five fields printed one after the other between
    quotes. *)
Lemma etag_fields (s : Z) (mt : time.Time) :
  etag s mt = dquote +:+ digits (etagFields s mt) +:+ dquote.
Proof.
  unfold etag, etagFields. destruct (time.Clock mt) as [[hour minute] second].
  simpl. by rewrite !append_assoc, append_nil_l.
Qed.

(** C3, as the code has it.  The tag is computed from the size and from
    the day of the month, hour, minute and second of the modification
    time.  When two files differ in exactly one of these five fields,
    their tags differ. *)
Theorem etag_changes_with_one_field (s1 s2 : Z) (t1 t2 : time.Time)
        (pre post : list Z) (x y : Z) :
  etagFields s1 t1 = pre ++ x :: post ->
  etagFields s2 t2 = pre ++ y :: post ->
  x <> y ->
  etag s1 t1 <> etag s2 t2.
Proof.
  intros H1 H2 Hxy Heq. rewrite !etag_fields, H1, H2 in Heq.
  apply (inj (String.app dquote)) in Heq.
  apply append_inv_tail in Heq.
  rewrite !digits_app in Heq. apply (inj (String.app (digits pre))) in Heq.
  simpl in Heq. apply append_inv_tail in Heq.
  by apply (inj pretty) in Heq.
Qed.

(** ** The embedded tree *)

Lemma embed_Open_missing (tree : embed.FS) (n : string) :
  embed.lookup tree n = None ->
  embed.Open tree n = Err (fs.PathError "open" n fs.ErrNotExist NotExist).
Proof. intros Hn. unfold embed.Open. by rewrite Hn. Qed.

Lemma embed_Open_dir (tree : embed.FS) (n : string) (d : embed.file) :
  embed.lookup tree n = Some d -> embed.IsDir d = true ->
  embed.Open tree n = Ok (fs.mkFile (Ok (embed.info d)) None).
Proof. intros Hn Hd. unfold embed.Open. by rewrite Hn, Hd. Qed.

(** Every handle of the embedded tree reports the zero modification
    time. *)
Lemma embed_zero_modtime (tree : embed.FS) (n : string) (f : fs.File) (i : fs.FileInfo) :
  embed.Open tree n = Ok f -> fs.Stat f = Ok i -> time.IsZero (fs.ModTime i) = true.
Proof.
  unfold embed.Open. intros Hf Hi.
  repeat case_match; simplify_eq/=; done.
Qed.

Section Endpoints.
Context `{World}.

(** C6.  The schema endpoint has no fallback: when the swagger document
    is not in the embedded tree, whatever else the tree holds, the
    response is 404 and its body is the message of the error [Open]
    returned. *)
Theorem swagger_absent_is_404 (r : http.Request) :
  embed.lookup data (filepath.Join embedBaseDir swaggerFile) = None ->
  let w := NewSwaggerHandler http.NewRecorder r in
  exists e,
    embed.Open data (filepath.Join embedBaseDir swaggerFile) = Err e
    /\ Error e = "open data/swagger.json: file does not exist"
    /\ http.Status w = 404
    /\ http.Body w = Error e +:+ http.newline.
Proof.
  intros Hn. eexists. split; [by apply embed_Open_missing|].
  split; [done|].
  unfold NewSwaggerHandler, mwSetCacheControl.
  rewrite (embed_Open_missing _ _ Hn).
  by rewrite Status_Error, Body_Error.
Qed.

(** C7.  For a file whose metadata reports the zero modification time,
    the modification time is what [time.Parse] makes of the build
    date in the RFC 3339 layout: when the date parses, the tag is
    computed from it and [http.ServeContent] is called with it; when
    it does not, the handler answers 500 with the parse error and
    returns. *)
Theorem zero_modtime_uses_build_date (f : fs.File) (i : fs.FileInfo) (content : string)
        (w : http.ResponseWriter) (r : http.Request) :
  fs.Stat f = Ok i -> fs.ReadSeeker f = Some content ->
  time.IsZero (fs.ModTime i) = true ->
  http.Status w = 0 ->
  modTimeFromInfo i = time_Parse time.RFC3339 BuildDate
  /\ match time_Parse time.RFC3339 BuildDate with
     | Ok t =>
         staticFileHandler f w r
         = http.ServeContent (http.Set_ w "ETag" (etag (fs.Size i) t)) r
                             (fs.Name i) t content
     | Err e =>
         http.Status (staticFileHandler f w r) = 500
         /\ http.Body (staticFileHandler f w r)
            = http.Body w +:+ Error e +:+ http.newline
     end.
Proof.
  intros Hi Hc Hz Hw.
  assert (modTimeFromInfo i = time_Parse time.RFC3339 BuildDate) as Hmt.
  { unfold modTimeFromInfo. by rewrite Hz. }
  split; [done|].
  destruct (time_Parse time.RFC3339 BuildDate) as [t|e] eqn:Hp.
  - by apply staticFileHandler_serves.
  - unfold staticFileHandler. rewrite Hc, Hi, Hmt.
    by rewrite Status_Error, Body_Error.
Qed.

(** C8, as the code has it.  A directory is not a missing file.  When
    the name asked for is a directory of the embedded tree, [Open]
    succeeds, so the default document is never tried, and since the
    handle of a directory cannot seek the response is 500. *)
Theorem embedded_directory_is_500 (tree : embed.FS) (dir : string)
        (r : http.Request) (d : embed.file) :
  embed.lookup tree (filepath.Join dir (assetName r)) = Some d ->
  embed.IsDir d = true ->
  let w := mwSetCacheControl (assetHandler (embed.Open tree) dir) http.NewRecorder r in
  fst (openAsset (embed.Open tree) dir (assetName r))
  = [filepath.Join dir (assetName r)]
  /\ http.Status w = 500
  /\ http.Body w = "could not open file for reading" +:+ http.newline.
Proof.
  intros Hn Hd. pose proof (embed_Open_dir _ _ _ Hn Hd) as Hopen.
  unfold mwSetCacheControl, assetHandler.
  rewrite (openAsset_found _ _ _ _ Hopen). cbn [fst snd]. split; [done|].
  rewrite staticFileHandler_unseekable by done.
  by rewrite Status_Error, Body_Error.
Qed.

(** C10.  Every failure of [openAsset] is answered with 404 and the
    error text, whatever the kind of the error.  In particular, when
    the first [Open] fails with an error that is not a not-exist
    error, that error is the one reported and the default document is
    not tried: the name asked for is the only name opened. *)
Theorem open_failure_is_404 (fileOpener : fs.FS) (dir : string)
        (r : http.Request) (e : error) :
  snd (openAsset fileOpener dir (assetName r)) = Err e ->
  let w := assetHandler fileOpener dir http.NewRecorder r in
  http.Status w = 404
  /\ http.Body w = Error e +:+ http.newline
  /\ (forall e1,
         fileOpener (filepath.Join dir (assetName r)) = Err e1 ->
         os.IsNotExist e1 = false ->
         e = e1
         /\ fst (openAsset fileOpener dir (assetName r))
            = [filepath.Join dir (assetName r)]).
Proof.
  intros He. unfold assetHandler. rewrite He.
  rewrite Status_Error, Body_Error by done.
  split; [done|]. split; [done|].
  intros e1 He1 Hk. rewrite (openAsset_refused _ _ _ _ He1 Hk) in *.
  simpl in He. by simplify_eq.
Qed.

End Endpoints.

(** ** Names handed to the asset source *)

Lemma ValidPath_no_dotdot (n : string) :
  fs.ValidPath n = true -> ~ In ".." (strings.SplitSlash n).
Proof.
  unfold fs.ValidPath. intros [Hdot|Hall]%orb_true_iff Hin.
  - apply bool_decide_eq_true in Hdot as ->. simpl in Hin. by destruct Hin.
  - rewrite forallb_forall in Hall. by specialize (Hall _ Hin).
Qed.

(** ** The handlers at work on the concrete world *)

(** C1 as stated fails.  The file [data/build/index.html] exists in the
    embedded tree, but in a binary whose build date is empty the request
    for it is answered with 500.  The file [app.js] exists on disk, but
    a GET that presents its entity tag is answered with 304 and an empty
    body, and a HEAD is answered with 200 and an empty body. *)
Lemma existing_asset_not_always_200 :
  (filepath.Join "data/build" (assetName (sample.get "/index.html")) = "data/build/index.html"
   /\ embed.Open (@data sample.undated) "data/build/index.html"
      = Ok (sample.embedded "index.html" sample.indexHTML)
   /\ http.Status (@NewAssetHandler sample.undated "" http.NewRecorder
                                    (sample.get "/index.html")) = 500)
  /\ (filepath.Join "" (assetName (sample.get "/app.js")) = "app.js"
      /\ @os_DirFS sample.release "/srv/ui" "app.js"
         = Ok (sample.regular "app.js" sample.appJS sample.modified)
      /\ (let r := http.mkRequest "GET" "/app.js"
                                  (http.inmTags [etag 14 sample.modified]) in
          http.Status (@NewAssetHandler sample.release "/srv/ui" http.NewRecorder r) = 304
          /\ http.Body (@NewAssetHandler sample.release "/srv/ui" http.NewRecorder r) = "")
      /\ (let r := http.mkRequest "HEAD" "/app.js" http.inmAbsent in
          http.Status (@NewAssetHandler sample.release "/srv/ui" http.NewRecorder r) = 200
          /\ http.Body (@NewAssetHandler sample.release "/srv/ui" http.NewRecorder r) = "")).
Proof. repeat split; by vm_compute. Qed.

Lemma asset_found_served_witness :
  http.Status (mwSetCacheControl (@assetHandler sample.release sample.disk "")
                                 http.NewRecorder (sample.get "/app.js")) = 200
  /\ http.Body (mwSetCacheControl (@assetHandler sample.release sample.disk "")
                                  http.NewRecorder (sample.get "/app.js")) = sample.appJS.
Proof.
  apply (@asset_found_served sample.release sample.disk "" (sample.get "/app.js")
           (sample.regular "app.js" sample.appJS sample.modified)
           (fs.mkFileInfo "app.js" 14 sample.modified false)
           sample.appJS sample.modified);
    try reflexivity.
  discriminate.
Defined.

(** C2 as stated fails.  Nothing is called [nothing/here] in the
    embedded tree or on disk and the default document exists.  In a
    binary whose build date is empty the response is 500; on disk a GET
    that presents the entity tag of the default document is answered
    with 304, and a HEAD with 200 and an empty body. *)
Lemma missing_asset_not_always_200 :
  (filepath.Join "data/build" (assetName (sample.get "/nothing/here")) = "data/build/nothing/here"
   /\ embed.lookup (@data sample.undated) "data/build/nothing/here" = None
   /\ embed.Open (@data sample.undated) (filepath.Join "data/build" defaultFile)
      = Ok (sample.embedded "index.html" sample.indexHTML)
   /\ http.Status (@NewAssetHandler sample.undated "" http.NewRecorder
                                    (sample.get "/nothing/here")) = 500)
  /\ (@os_DirFS sample.release "/srv/ui" "nothing/here"
      = Err (fs.PathError "open" "nothing/here" "no such file or directory" NotExist)
      /\ @os_DirFS sample.release "/srv/ui" (filepath.Join "" defaultFile)
         = Ok (sample.regular "index.html" sample.indexHTML sample.modified)
      /\ (let r := http.mkRequest "GET" "/nothing/here"
                                  (http.inmTags [etag 15 sample.modified]) in
          http.Status (@NewAssetHandler sample.release "/srv/ui" http.NewRecorder r) = 304
          /\ http.Body (@NewAssetHandler sample.release "/srv/ui" http.NewRecorder r) = "")
      /\ (let r := http.mkRequest "HEAD" "/nothing/here" http.inmAbsent in
          http.Status (@NewAssetHandler sample.release "/srv/ui" http.NewRecorder r) = 200
          /\ http.Body (@NewAssetHandler sample.release "/srv/ui" http.NewRecorder r) = "")).
Proof. repeat split; by vm_compute. Qed.

Lemma asset_missing_falls_back_witness :
  (http.Status (mwSetCacheControl
                  (@assetHandler sample.release (embed.Open sample.bundle) "data/build")
                  http.NewRecorder (sample.get "/nothing/here")) = 200
   /\ http.Body (mwSetCacheControl
                   (@assetHandler sample.release (embed.Open sample.bundle) "data/build")
                   http.NewRecorder (sample.get "/nothing/here")) = sample.indexHTML)
  /\ (http.Status (mwSetCacheControl
                     (@assetHandler sample.release (embed.Open sample.emptyBundle) "data/build")
                     http.NewRecorder (sample.get "/nothing/here")) = 404
      /\ http.Body (mwSetCacheControl
                      (@assetHandler sample.release (embed.Open sample.emptyBundle) "data/build")
                      http.NewRecorder (sample.get "/nothing/here"))
         = "open data/build/index.html: file does not exist" +:+ http.newline).
Proof.
  split.
  - apply (proj1 (@asset_missing_falls_back sample.release (embed.Open sample.bundle)
                    "data/build" (sample.get "/nothing/here")
                    (fs.PathError "open" "data/build/nothing/here" fs.ErrNotExist NotExist)
                    eq_refl eq_refl)
                 (sample.embedded "index.html" sample.indexHTML)
                 (fs.mkFileInfo "index.html" 15 time.zero false)
                 sample.indexHTML sample.buildTime);
      try reflexivity.
    discriminate.
  - apply (proj2 (@asset_missing_falls_back sample.release (embed.Open sample.emptyBundle)
                    "data/build" (sample.get "/nothing/here")
                    (fs.PathError "open" "data/build/nothing/here" fs.ErrNotExist NotExist)
                    eq_refl eq_refl)
                 (fs.PathError "open" "data/build/index.html" fs.ErrNotExist NotExist)).
    reflexivity.
Defined.

(** C3 as stated fails.  Two modification times a year and a month
    apart, and two files whose sizes and days of the month print to the
    same digits, have the same tag. *)
Lemma etag_collisions :
  (time.Date 2021 3 15 10 20 30 <> time.Date 2022 4 15 10 20 30
   /\ etag 14 (time.Date 2021 3 15 10 20 30) = etag 14 (time.Date 2022 4 15 10 20 30))
  /\ (1 <> 11
      /\ etag 1 (time.Date 2021 3 11 0 0 0) = etag 11 (time.Date 2021 3 1 0 0 0)).
Proof. repeat split; by vm_compute. Qed.

Lemma etag_changes_with_one_field_witness :
  etagFields 14 sample.modified = [] ++ 14 :: [15; 10; 20; 30]
  /\ etagFields 15 sample.modified = [] ++ 15 :: [15; 10; 20; 30]
  /\ etag 14 sample.modified <> etag 15 sample.modified.
Proof.
  split; [reflexivity|]. split; [reflexivity|].
  apply (etag_changes_with_one_field 14 15 sample.modified sample.modified
           [] [15; 10; 20; 30] 14 15); [reflexivity | reflexivity | discriminate].
Defined.

Lemma swagger_absent_is_404_witness :
  embed.lookup sample.uiOnly (filepath.Join embedBaseDir swaggerFile) = None
  /\ exists e,
      embed.Open sample.uiOnly (filepath.Join embedBaseDir swaggerFile) = Err e
      /\ Error e = "open data/swagger.json: file does not exist"
      /\ http.Status (@NewSwaggerHandler (sample.world "2021-03-14T09:26:53Z" sample.uiOnly)
                                         http.NewRecorder (sample.get "/api/v2/swagger.json"))
         = 404
      /\ http.Body (@NewSwaggerHandler (sample.world "2021-03-14T09:26:53Z" sample.uiOnly)
                                       http.NewRecorder (sample.get "/api/v2/swagger.json"))
         = Error e +:+ http.newline.
Proof.
  split; [reflexivity|].
  apply (@swagger_absent_is_404 (sample.world "2021-03-14T09:26:53Z" sample.uiOnly)
           (sample.get "/api/v2/swagger.json")).
  reflexivity.
Defined.

Lemma zero_modtime_uses_build_date_witness :
  (@modTimeFromInfo sample.release (fs.mkFileInfo "index.html" 15 time.zero false)
   = Ok sample.buildTime
   /\ @staticFileHandler sample.release (sample.embedded "index.html" sample.indexHTML)
                         http.NewRecorder (sample.get "/")
      = @http.ServeContent sample.release
          (http.Set_ http.NewRecorder "ETag" (etag 15 sample.buildTime))
          (sample.get "/") "index.html" sample.buildTime sample.indexHTML)
  /\ (@modTimeFromInfo sample.undated (fs.mkFileInfo "index.html" 15 time.zero false)
      = Err (sample.parseError "")
      /\ http.Status (@staticFileHandler sample.undated
                        (sample.embedded "index.html" sample.indexHTML)
                        http.NewRecorder (sample.get "/")) = 500
      /\ http.Body (@staticFileHandler sample.undated
                      (sample.embedded "index.html" sample.indexHTML)
                      http.NewRecorder (sample.get "/"))
         = "" +:+ Error (sample.parseError "") +:+ http.newline).
Proof.
  split.
  - apply (@zero_modtime_uses_build_date sample.release
             (sample.embedded "index.html" sample.indexHTML)
             (fs.mkFileInfo "index.html" 15 time.zero false) sample.indexHTML
             http.NewRecorder (sample.get "/") eq_refl eq_refl eq_refl eq_refl).
  - apply (@zero_modtime_uses_build_date sample.undated
             (sample.embedded "index.html" sample.indexHTML)
             (fs.mkFileInfo "index.html" 15 time.zero false) sample.indexHTML
             http.NewRecorder (sample.get "/") eq_refl eq_refl eq_refl eq_refl).
Defined.

(** C8 as stated fails.  In the embedded tree [static] is a directory
    and [nothing/here] is missing: the request for the missing file is
    answered with the default document, the request for the directory
    with 500. *)
Lemma directory_is_not_treated_as_missing :
  (embed.lookup (@data sample.release) (filepath.Join "data/build" (assetName (sample.get "/nothing/here")))
   = None
   /\ http.Status (@NewAssetHandler sample.release "" http.NewRecorder
                                    (sample.get "/nothing/here")) = 200
   /\ http.Body (@NewAssetHandler sample.release "" http.NewRecorder
                                  (sample.get "/nothing/here")) = sample.indexHTML)
  /\ (embed.lookup (@data sample.release) (filepath.Join "data/build" (assetName (sample.get "/static")))
      = Some (embed.mkfile "data/build/static/" "")
      /\ http.Status (@NewAssetHandler sample.release "" http.NewRecorder
                                       (sample.get "/static")) = 500
      /\ http.Body (@NewAssetHandler sample.release "" http.NewRecorder
                                     (sample.get "/static"))
         = "could not open file for reading" +:+ http.newline).
Proof. repeat split; by vm_compute. Qed.

Lemma embedded_directory_is_500_witness :
  fst (openAsset (embed.Open sample.bundle) "data/build" (assetName (sample.get "/static")))
  = [filepath.Join "data/build" (assetName (sample.get "/static"))]
  /\ http.Status (mwSetCacheControl
                    (@assetHandler sample.release (embed.Open sample.bundle) "data/build")
                    http.NewRecorder (sample.get "/static")) = 500
  /\ http.Body (mwSetCacheControl
                  (@assetHandler sample.release (embed.Open sample.bundle) "data/build")
                  http.NewRecorder (sample.get "/static"))
     = "could not open file for reading" +:+ http.newline.
Proof.
  apply (@embedded_directory_is_500 sample.release sample.bundle "data/build"
           (sample.get "/static") (embed.mkfile "data/build/static/" "")
           eq_refl eq_refl).
Defined.

Lemma open_failure_is_404_witness :
  snd (openAsset sample.disk "" (assetName (sample.get "/secret.key")))
  = Err (fs.PathError "open" "secret.key" "permission denied" Permission)
  /\ http.Status (@assetHandler sample.release sample.disk "" http.NewRecorder
                                (sample.get "/secret.key")) = 404
  /\ http.Body (@assetHandler sample.release sample.disk "" http.NewRecorder
                              (sample.get "/secret.key"))
     = "open secret.key: permission denied" +:+ http.newline
  /\ fst (openAsset sample.disk "" (assetName (sample.get "/secret.key")))
     = ["secret.key"].
Proof.
  split; [reflexivity|].
  destruct (@open_failure_is_404 sample.release sample.disk "" (sample.get "/secret.key")
              (fs.PathError "open" "secret.key" "permission denied" Permission) eq_refl)
    as (Hs & Hb & Hone).
  split; [exact Hs|]. split; [exact Hb|].
  exact (proj2 (Hone _ eq_refl eq_refl)).
Defined.

(** ** The scenarios of the specification *)

(** The root request on a tree that holds the default document, and a
    request for a route of the client: both get the document. *)
Example scenario_root_and_route :
  let root := @NewAssetHandler sample.release "" http.NewRecorder (sample.get "/") in
  let route := @NewAssetHandler sample.release "" http.NewRecorder
                                (sample.get "/nonexistent/route") in
  http.Status root = 200 /\ http.Body root = sample.indexHTML
  /\ http.Values root "ETag" = [etag 15 sample.buildTime]
  /\ http.Values root "Last-Modified" = ["Sun, 14 Mar 2021 09:26:53 GMT"]
  /\ http.Status route = 200 /\ http.Body route = http.Body root.
Proof. repeat split; by vm_compute. Qed.

(** A tree without the default document. *)
Example scenario_empty_bundle :
  let w := @NewAssetHandler (sample.world "2021-03-14T09:26:53Z" sample.emptyBundle) ""
                            http.NewRecorder (sample.get "/") in
  http.Status w = 404
  /\ http.Body w = "open data/build/index.html: file does not exist" +:+ http.newline.
Proof. split; by vm_compute. Qed.

(** The schema endpoint with and without the document. *)
Example scenario_swagger :
  http.Status (@NewSwaggerHandler sample.release http.NewRecorder (sample.get "/api")) = 200
  /\ http.Body (@NewSwaggerHandler sample.release http.NewRecorder (sample.get "/api"))
     = sample.swaggerJSON
  /\ http.Status (@NewSwaggerHandler (sample.world "" sample.emptyBundle)
                                     http.NewRecorder (sample.get "/api")) = 404.
Proof. repeat split; by vm_compute. Qed.

(** The disk source refuses a name that climbs out of the directory,
    and a rooted path never produces one. *)
Example scenario_traversal_on_disk :
  http.Status (@NewAssetHandler sample.release "/srv/ui" http.NewRecorder
                                (sample.get "../../etc/passwd")) = 404
  /\ assetName (sample.get "/../../etc/passwd") = "etc/passwd"
  /\ http.Body (@NewAssetHandler sample.release "/srv/ui" http.NewRecorder
                                 (sample.get "/../../etc/passwd")) = sample.indexHTML.
Proof. repeat split; by vm_compute. Qed.

(** * Further properties of the handlers *)

(** ** [path.Clean] is idempotent *)

Lemma real_not_dotdot (e : string) : real e -> e <> "..".
Proof. intros [Hv _]. by apply validElem_true in Hv as (_ & _ & ?). Qed.

Lemma dotdot_noSlash (ds : list string) :
  Forall isDotDot ds -> Forall (fun e => noSlash e = true) ds.
Proof. intros Hds. eapply Forall_impl; [exact Hds|]. by intros e ->. Qed.

(** In a path that is not rooted the buffer holds the [..] elements
    that could not be resolved, then real elements. *)
Lemma step_relative_shape (reals dots : list string) (e : string) :
  noSlash e = true -> Forall real reals -> Forall isDotDot dots ->
  exists reals' dots',
    path.step false (reals ++ dots) e = reals' ++ dots'
    /\ Forall real reals' /\ Forall isDotDot dots'.
Proof.
  intros He Hr Hd. unfold path.step.
  destruct (decide (e = "")); [by exists reals, dots|].
  destruct (decide (e = ".")); [by exists reals, dots|].
  destruct (decide (e = "..")) as [->|].
  - destruct reals as [|top rest]; simpl.
    + exists [], (".." :: dots). split.
      * destruct dots as [|d dots']; [done|].
        inversion Hd as [|? ? Hd1 _]; subst. unfold isDotDot in Hd1. subst d.
        by rewrite decide_True.
      * split; [done|]. by constructor.
    + inversion Hr as [|? ? Htop Hrest]; subst.
      rewrite decide_False by by apply real_not_dotdot.
      by exists rest, dots.
  - exists (e :: reals), dots. split; [done|]. split; [|done].
    constructor; [|done]. split; [|done]. by apply validElem_true.
Qed.

Lemma fold_step_relative_shape (l reals dots : list string) :
  Forall (fun e => noSlash e = true) l -> Forall real reals -> Forall isDotDot dots ->
  exists reals' dots',
    fold_left (path.step false) l (reals ++ dots) = reals' ++ dots'
    /\ Forall real reals' /\ Forall isDotDot dots'.
Proof.
  revert reals dots. induction l as [|e l IH]; intros reals dots Hl Hr Hd; simpl.
  - by exists reals, dots.
  - inversion Hl; subst.
    destruct (step_relative_shape reals dots e) as (r' & d' & -> & Hr' & Hd'); [done..|].
    by apply IH.
Qed.

(** Over [..] elements followed by real elements, starting from an
    empty buffer, the scan only appends. *)
Lemma fold_step_dots (ds out : list string) :
  Forall isDotDot ds -> Forall isDotDot out ->
  fold_left (path.step false) ds out = rev ds ++ out.
Proof.
  revert out. induction ds as [|d ds IH]; intros out Hds Hout; simpl; [done|].
  inversion Hds as [|? ? Hd Hrest]; subst. unfold isDotDot in Hd. subst d.
  assert (path.step false out ".." = ".." :: out) as ->.
  { unfold path.step. rewrite !decide_False by done. rewrite decide_True by done.
    destruct out as [|o out']; [done|].
    inversion Hout as [|? ? Ho _]; subst. unfold isDotDot in Ho. subst o.
    by rewrite decide_True. }
  rewrite IH; [|done|by constructor]. by rewrite <- app_assoc.
Qed.

Lemma JoinSlash_first_char (e : string) (es : list string) :
  e <> "" -> noSlash e = true ->
  strings.JoinSlash (e :: es) <> "" /\ strings.HasPrefix (strings.JoinSlash (e :: es)) "/" = false.
Proof.
  intros Hne Hns. destruct e as [|c e]; [done|].
  simpl in Hns. apply andb_true_iff in Hns as [Hc _]. apply negb_true_iff in Hc.
  destruct es as [|e' es].
  - simpl. by rewrite Hc.
  - rewrite JoinSlash_cons, append_cons. simpl. by rewrite Hc.
Qed.

(** A clean relative path is left as it is. *)
Lemma Clean_relative_shape (ds rs : list string) :
  Forall isDotDot ds -> Forall real rs -> ds ++ rs <> [] ->
  path.Clean (strings.JoinSlash (ds ++ rs)) = strings.JoinSlash (ds ++ rs).
Proof.
  intros Hds Hrs Hne.
  assert (Forall (fun e => noSlash e = true) (ds ++ rs)) as Hns.
  { apply Forall_app. split; [by apply dotdot_noSlash | by apply real_noSlash]. }
  assert (exists e es, ds ++ rs = e :: es /\ e <> "" /\ noSlash e = true) as (e & es & Heq & He & Hens).
  { destruct ds as [|d ds'].
    - destruct rs as [|r rs']; [done|]. exists r, rs'. simpl.
      inversion Hrs as [|? ? [Hv Hn] _]; subst.
      split; [done|]. split; [|done]. by apply validElem_true in Hv as (? & _).
    - exists d, (ds' ++ rs). inversion Hds as [|? ? Hd _]; subst.
      unfold isDotDot in Hd. by subst d. }
  destruct (JoinSlash_first_char e es He Hens) as [Hnonempty Hroot].
  unfold path.Clean. rewrite <- Heq in Hnonempty, Hroot.
  rewrite decide_False by done. rewrite Hroot.
  rewrite SplitSlash_JoinSlash by done.
  rewrite fold_left_app. rewrite (fold_step_dots ds []) by (done || constructor).
  rewrite app_nil_r.
  rewrite fold_step_push by by apply real_forallb.
  rewrite decide_False.
  - by rewrite rev_app_distr, !rev_involutive.
  - intros Hnil. apply Hne. apply (f_equal (@rev string)) in Hnil.
    by rewrite rev_app_distr, !rev_involutive in Hnil.
Qed.

(** A clean rooted path is left as it is. *)
Lemma Clean_rooted_shape (es : list string) :
  Forall real es ->
  path.Clean ("/" +:+ strings.JoinSlash es) = "/" +:+ strings.JoinSlash es.
Proof.
  intros Hes. unfold path.Clean.
  change ("/" +:+ strings.JoinSlash es) with (String "/" (strings.JoinSlash es)).
  rewrite decide_False by done.
  assert (strings.HasPrefix (String "/" (strings.JoinSlash es)) "/" = true) as -> by done.
  rewrite SplitSlash_String. simpl (Ascii.eqb "/" "/").
  destruct es as [|e es].
  - done.
  - rewrite (SplitSlash_JoinSlash (e :: es)); [|done|by apply real_noSlash].
    change (fold_left (path.step true) ("" :: e :: es) [])
      with (fold_left (path.step true) (e :: es) (path.step true [] "")).
    assert (path.step true [] "" = []) as -> by done.
    rewrite fold_step_push by (by apply real_forallb).
    by rewrite app_nil_r, rev_involutive.
Qed.

Lemma Clean_idempotent (p : string) : path.Clean (path.Clean p) = path.Clean p.
Proof.
  destruct (decide (p = "")) as [->|Hne]; [done|].
  destruct (strings.HasPrefix p "/") eqn:Hroot.
  - apply HasPrefix_slash in Hroot as [q ->].
    destruct (Clean_rooted q) as (es & Hes & ->). by apply Clean_rooted_shape.
  - destruct (fold_step_relative_shape (strings.SplitSlash p) [] [])
      as (rs & ds & Hout & Hrs & Hds); [apply SplitSlash_noSlash | done..|].
    simpl in Hout.
    assert (path.Clean p = if decide (rs ++ ds = []) then "."
                           else strings.JoinSlash (rev (rs ++ ds))) as ->.
    { unfold path.Clean. rewrite decide_False by done. by rewrite Hroot, Hout. }
    destruct (decide (rs ++ ds = [])) as [Hnil|Hnn]; [done|].
    rewrite rev_app_distr. apply Clean_relative_shape.
    + by apply Forall_rev.
    + by apply Forall_rev.
    + intros Hnil. apply Hnn. apply (f_equal (@rev string)) in Hnil.
      by rewrite rev_app_distr, !rev_involutive in Hnil.
Qed.

(** ** What [http.ServeContent] reads of the request and of the writer *)

Lemma Values_Del_eq (w : http.ResponseWriter) (k : string) :
  http.Values (http.Del w k) k = [].
Proof. unfold http.Values, http.Del. simpl. by rewrite lookup_delete_eq. Qed.

Lemma Get_Values (w : http.ResponseWriter) (k v : string) :
  http.Values w k = [v] -> http.Get w k = v.
Proof. unfold http.Get. by intros ->. Qed.

Lemma Status_Set (w : http.ResponseWriter) (k v : string) : http.Status (http.Set_ w k v) = http.Status w.
Proof. reflexivity. Qed.

Lemma Status_Add (w : http.ResponseWriter) (k v : string) : http.Status (http.Add w k v) = http.Status w.
Proof. reflexivity. Qed.

Lemma Body_Set (w : http.ResponseWriter) (k v : string) : http.Body (http.Set_ w k v) = http.Body w.
Proof. reflexivity. Qed.

Lemma Body_Add (w : http.ResponseWriter) (k v : string) : http.Body (http.Add w k v) = http.Body w.
Proof. reflexivity. Qed.

Lemma etag_not_empty (s : Z) (mt : time.Time) : etag s mt <> "".
Proof. by rewrite etag_fields. Qed.

Lemma etagWeakMatch_refl (a : string) : http.etagWeakMatch a a = true.
Proof. unfold http.etagWeakMatch. by apply bool_decide_eq_true. Qed.

Section ServeContentMore.
Context `{World}.

(** The request enters [http.ServeContent] through its method and its
    [If-None-Match] header only. *)
Lemma ServeContent_request (w : http.ResponseWriter) (r1 r2 : http.Request)
      (name : string) (mt : time.Time) (content : string) :
  http.Method r1 = http.Method r2 -> http.INM r1 = http.INM r2 ->
  http.ServeContent w r1 name mt content = http.ServeContent w r2 name mt content.
Proof.
  intros Hm Hi. unfold http.ServeContent, http.checkIfNoneMatch. by rewrite Hm, Hi.
Qed.

(** The status [http.ServeContent] writes. *)
Lemma Status_ServeContent (w : http.ResponseWriter) (r : http.Request)
      (name : string) (mt : time.Time) (content : string) :
  http.Status w = 0 ->
  http.Status (http.ServeContent w r name mt content)
  = match http.checkIfNoneMatch (http.setLastModified w mt) r with
    | http.condFalse =>
        if bool_decide (http.Method r = "GET") || bool_decide (http.Method r = "HEAD")
        then http.StatusNotModified else http.StatusPreconditionFailed
    | _ => http.StatusOK
    end.
Proof.
  intros Hw. unfold http.ServeContent, http.writeNotModified, http.setLastModified,
    http.Write, http.WriteHeader.
  repeat (case_match; simpl in *); try done; lia.
Qed.

(** A precondition that fails leaves the body as it was. *)
Lemma Body_ServeContent_condFalse (w : http.ResponseWriter) (r : http.Request)
      (name : string) (mt : time.Time) (content : string) :
  http.checkIfNoneMatch (http.setLastModified w mt) r = http.condFalse ->
  http.Body (http.ServeContent w r name mt content) = http.Body w.
Proof.
  intros Hc. unfold http.ServeContent. rewrite Hc.
  unfold http.writeNotModified, http.setLastModified, http.WriteHeader.
  repeat (case_match; simpl in *); done.
Qed.

Lemma staticFileHandler_request (f : fs.File) (w : http.ResponseWriter)
      (r1 r2 : http.Request) :
  http.Method r1 = http.Method r2 -> http.INM r1 = http.INM r2 ->
  staticFileHandler f w r1 = staticFileHandler f w r2.
Proof.
  intros Hm Hi. unfold staticFileHandler. repeat case_match; try done.
  by apply ServeContent_request.
Qed.

Lemma assetHandler_request (fileOpener : fs.FS) (dir : string) (w : http.ResponseWriter)
      (r1 r2 : http.Request) :
  assetName r1 = assetName r2 ->
  http.Method r1 = http.Method r2 -> http.INM r1 = http.INM r2 ->
  assetHandler fileOpener dir w r1 = assetHandler fileOpener dir w r2.
Proof.
  intros Hn Hm Hi. unfold assetHandler. rewrite Hn. case_match; [|done].
  by apply staticFileHandler_request.
Qed.

(** The status of a response to a file, on a writer that has none. *)
Lemma Status_staticFileHandler (f : fs.File) (w : http.ResponseWriter) (r : http.Request) :
  http.Status w = 0 ->
  In (http.Status (staticFileHandler f w r)) [200; 304; 412; 500]
  /\ (http.Status (staticFileHandler f w r) = 412 ->
      http.Method r <> "GET" /\ http.Method r <> "HEAD" /\ http.INM r <> http.inmAbsent)
  /\ (http.Status (staticFileHandler f w r) = 304 -> http.INM r <> http.inmAbsent)
  /\ (http.Values w "ETag" = [] ->
      http.Values (staticFileHandler f w r) "ETag" = []
      <-> http.Status (staticFileHandler f w r) = 500).
Proof.
  intros Hw. unfold staticFileHandler.
  destruct (fs.ReadSeeker f) as [content|];
    [destruct (fs.Stat f) as [i|e]; [destruct (modTimeFromInfo i) as [t|e]|]|].
  2-4: rewrite Status_Error by done;
       rewrite Values_Error by (repeat constructor; by vm_compute);
       split; [simpl; tauto|]; split; [done|]; split; [done|]; by intros ->.
  rewrite Status_ServeContent by done.
  rewrite Values_ServeContent by apply apart_ETag. rewrite Values_Set_eq.
  unfold http.checkIfNoneMatch.
  destruct (http.INM r) as [| |tags]; simpl.
  - split; [tauto|]. split; [done|]. split; [done|]. intros _. by split.
  - destruct (bool_decide (http.Method r = "GET")) eqn:Hg;
      destruct (bool_decide (http.Method r = "HEAD")) eqn:Hh; simpl;
      (split; [tauto|]; split;
       [try done; intros _; apply bool_decide_eq_false in Hg, Hh; done|];
       split; [done|]; intros _; by split).
  - destruct (existsb _ tags); simpl.
    + destruct (bool_decide (http.Method r = "GET")) eqn:Hg;
        destruct (bool_decide (http.Method r = "HEAD")) eqn:Hh; simpl;
        (split; [tauto|]; split;
         [try done; intros _; apply bool_decide_eq_false in Hg, Hh; done|];
         split; [done|]; intros _; by split).
    + split; [tauto|]. split; [done|]. split; [done|]. intros _. by split.
Qed.

End ServeContentMore.

Lemma embed_Open_file (tree : embed.FS) (n : string) (d : embed.file) :
  embed.lookup tree n = Some d -> embed.IsDir d = false ->
  embed.Open tree n = Ok (fs.mkFile (Ok (embed.info d)) (Some (embed.data d))).
Proof. intros Hn Hd. unfold embed.Open. by rewrite Hn, Hd. Qed.

Lemma openAsset_default (fileOpener : fs.FS) (dir : string) :
  snd (openAsset fileOpener dir defaultFile) = fileOpener (filepath.Join dir defaultFile).
Proof.
  unfold openAsset. destruct (fileOpener (filepath.Join dir defaultFile)) as [f|e] eqn:Hd; [done|].
  by destruct (os.IsNotExist e).
Qed.

Section MoreEndpoints.
Context `{World}.

(** X1.  The asset handler sees the URL path only through its clean
    form: replacing the path of a request by [path.Clean] of it
    changes nothing in the response, whatever the source holds. *)
Theorem clean_path_same_response (fileOpener : fs.FS) (dir : string)
        (w : http.ResponseWriter) (r : http.Request) :
  assetHandler fileOpener dir w (withPath r (path.Clean (http.URLPath r)))
  = assetHandler fileOpener dir w r.
Proof.
  apply assetHandler_request; [|done..].
  unfold assetName, withPath. simpl. by rewrite Clean_idempotent.
Qed.

(** X2.  The fallback serves the root: when the name asked for fails to
    open with a not-exist error, the response is the one the same
    request gets for the path [/], be it the default document or the
    error of opening it. *)
Theorem missing_path_same_as_root (fileOpener : fs.FS) (dir : string)
        (w : http.ResponseWriter) (r : http.Request) (e : error) :
  fileOpener (filepath.Join dir (assetName r)) = Err e -> os.IsNotExist e = true ->
  assetHandler fileOpener dir w r = assetHandler fileOpener dir w (withPath r "/").
Proof.
  intros He Hk. unfold assetHandler.
  rewrite (openAsset_fallback _ _ _ _ He Hk). cbn [snd].
  assert (assetName (withPath r "/") = defaultFile) as -> by reflexivity.
  rewrite openAsset_default.
  destruct (fileOpener (filepath.Join dir defaultFile)); [|done].
  by apply staticFileHandler_request.
Qed.

(** X3.  When the swagger document is a file of the embedded tree and
    the build date parses, a request to the schema endpoint that is not
    a HEAD and carries neither a conditional header nor a [Range]
    header gets status 200, the bytes of the document, and the tag of
    its length and the build time. *)
Theorem swagger_present_served (r : http.Request) (d : embed.file) (t : time.Time) :
  embed.lookup data (filepath.Join embedBaseDir swaggerFile) = Some d ->
  embed.IsDir d = false ->
  time_Parse time.RFC3339 BuildDate = Ok t ->
  http.Method r <> "HEAD" -> http.INM r = http.inmAbsent ->
  let w := NewSwaggerHandler http.NewRecorder r in
  http.Status w = 200
  /\ http.Body w = embed.data d
  /\ http.Values w "ETag" = [etag (Z.of_nat (String.length (embed.data d))) t].
Proof.
  intros Hn Hd Ht Hm Hinm. unfold NewSwaggerHandler, mwSetCacheControl.
  rewrite (embed_Open_file _ _ _ Hn Hd).
  rewrite (staticFileHandler_serves _ (embed.info d) (embed.data d) t) by done.
  edestruct ServeContent_plain as [-> ->]; [|exact Hinm|]; [done|].
  rewrite bool_decide_eq_false_2 by done.
  rewrite Values_ServeContent by apply apart_ETag.
  by rewrite Values_Set_eq.
Qed.

(** X4.  Revalidation.  A GET or HEAD without [If-Match] and
    [If-Unmodified-Since] that lists, in [If-None-Match], the entity
    tag a response to the file carried is answered with 304: nothing is
    written to the body, the tag is sent again, and the [Last-Modified]
    and [Content-Type] headers are taken off. *)
Theorem revalidation_gets_304 (f : fs.File) (i : fs.FileInfo) (content : string)
        (t : time.Time) (w : http.ResponseWriter) (r1 r2 : http.Request)
        (tags : list string) :
  fs.Stat f = Ok i -> fs.ReadSeeker f = Some content -> modTimeFromInfo i = Ok t ->
  http.Status w = 0 ->
  http.Method r2 = "GET" \/ http.Method r2 = "HEAD" ->
  http.INM r2 = http.inmTags tags ->
  In (http.Get (staticFileHandler f w r1) "ETag") tags ->
  let w2 := staticFileHandler f w r2 in
  http.Status w2 = 304
  /\ http.Body w2 = http.Body w
  /\ http.Values w2 "ETag" = [etag (fs.Size i) t]
  /\ http.Values w2 "Last-Modified" = []
  /\ http.Values w2 "Content-Type" = [].
Proof.
  intros Hi Hc Ht Hw Hm Hinm Hin.
  rewrite (staticFileHandler_serves _ _ _ _ _ _ Hi Hc Ht) in Hin.
  rewrite (Get_Values _ _ (etag (fs.Size i) t)) in Hin
    by (rewrite Values_ServeContent by apply apart_ETag; apply Values_Set_eq).
  rewrite (staticFileHandler_serves _ _ _ _ _ _ Hi Hc Ht). simpl.
  set (w0 := http.Set_ w "ETag" (etag (fs.Size i) t)).
  assert (http.Get (http.setLastModified w0 t) "Etag" = etag (fs.Size i) t) as Hget.
  { apply Get_Values. unfold http.setLastModified, w0.
    case_match; [|rewrite Values_Set_ne by (by vm_compute)]; apply (Values_Set_eq w "ETag"). }
  assert (http.checkIfNoneMatch (http.setLastModified w0 t) r2 = http.condFalse) as Hcond.
  { unfold http.checkIfNoneMatch. rewrite Hinm, Hget.
    assert (existsb (fun t0 => http.etagWeakMatch t0 (etag (fs.Size i) t)) tags = true) as ->; [|done].
    apply existsb_exists. eexists. split; [exact Hin | apply etagWeakMatch_refl]. }
  split; [|split; [|split]].
  - rewrite Status_ServeContent by done. rewrite Hcond.
    by destruct Hm as [-> | ->].
  - by rewrite Body_ServeContent_condFalse.
  - rewrite Values_ServeContent by apply apart_ETag. apply (Values_Set_eq w "ETag").
  - unfold http.ServeContent. rewrite Hcond.
    assert (bool_decide (http.Method r2 = "GET") || bool_decide (http.Method r2 = "HEAD") = true) as ->
      by (by destruct Hm as [-> | ->]).
    unfold http.writeNotModified.
    set (w1 := http.Del (http.Del (http.Del (http.setLastModified w0 t) "Content-Type")
                                  "Content-Length") "Content-Encoding").
    assert (http.Get w1 "Etag" = etag (fs.Size i) t) as Hget1.
    { apply Get_Values. unfold w1. rewrite !Values_Del_ne by (by vm_compute).
      unfold http.setLastModified, w0.
      case_match; [|rewrite Values_Set_ne by (by vm_compute)]; apply (Values_Set_eq w "ETag"). }
    rewrite Hget1. rewrite bool_decide_eq_false_2 by apply etag_not_empty.
    rewrite !Values_WriteHeader. split; [apply Values_Del_eq|].
    unfold w1. rewrite !Values_Del_ne by (by vm_compute). apply Values_Del_eq.
Qed.

(** X5.  Every request without [Range], [If-Match],
    [If-Unmodified-Since] and [If-Modified-Since] gets a status, and
    one of five: both endpoints answer a fresh writer with 200, 304,
    404, 412 or 500; 412 only to a request that is neither GET nor HEAD
    and carries [If-None-Match], 304 only to a request that carries
    [If-None-Match]. *)
Theorem every_response_has_a_status (assetsPath : string) (r : http.Request) :
  let asset := NewAssetHandler assetsPath http.NewRecorder r in
  let swagger := NewSwaggerHandler http.NewRecorder r in
  (In (http.Status asset) [200; 304; 404; 412; 500]
   /\ In (http.Status swagger) [200; 304; 404; 412; 500])
  /\ (http.Status asset = 412 \/ http.Status swagger = 412 ->
      http.Method r <> "GET" /\ http.Method r <> "HEAD" /\ http.INM r <> http.inmAbsent)
  /\ (http.Status asset = 304 \/ http.Status swagger = 304 ->
      http.INM r <> http.inmAbsent).
Proof.
  set (w0 := http.Add http.NewRecorder "Cache-Control" "public, max-age=3600").
  assert (forall f, let w := staticFileHandler f w0 r in
            In (http.Status w) [200; 304; 404; 412; 500]
            /\ (http.Status w = 412 ->
                http.Method r <> "GET" /\ http.Method r <> "HEAD" /\ http.INM r <> http.inmAbsent)
            /\ (http.Status w = 304 -> http.INM r <> http.inmAbsent)) as Hfile.
  { intros f. destruct (Status_staticFileHandler f w0 r eq_refl) as (Hin & H412 & H304 & _).
    split; [|done]. simpl in *. tauto. }
  assert (forall msg, let w := http.Error w0 msg http.StatusNotFound in
            In (http.Status w) [200; 304; 404; 412; 500]
            /\ (http.Status w = 412 ->
                http.Method r <> "GET" /\ http.Method r <> "HEAD" /\ http.INM r <> http.inmAbsent)
            /\ (http.Status w = 304 -> http.INM r <> http.inmAbsent)) as Herr.
  { intros msg. cbv zeta. rewrite Status_Error by done. split; [simpl; tauto|]. by split. }
  assert (forall fo dir, let w := assetHandler fo dir w0 r in
            In (http.Status w) [200; 304; 404; 412; 500]
            /\ (http.Status w = 412 ->
                http.Method r <> "GET" /\ http.Method r <> "HEAD" /\ http.INM r <> http.inmAbsent)
            /\ (http.Status w = 304 -> http.INM r <> http.inmAbsent)) as Hasset.
  { intros fo dir. unfold assetHandler. case_match; [apply Hfile | apply Herr]. }
  assert (let w := NewSwaggerHandler http.NewRecorder r in
          In (http.Status w) [200; 304; 404; 412; 500]
          /\ (http.Status w = 412 ->
              http.Method r <> "GET" /\ http.Method r <> "HEAD" /\ http.INM r <> http.inmAbsent)
          /\ (http.Status w = 304 -> http.INM r <> http.inmAbsent)) as Hsw.
  { unfold NewSwaggerHandler, mwSetCacheControl. case_match; [apply Hfile | apply Herr]. }
  assert (let w := NewAssetHandler assetsPath http.NewRecorder r in
          In (http.Status w) [200; 304; 404; 412; 500]
          /\ (http.Status w = 412 ->
              http.Method r <> "GET" /\ http.Method r <> "HEAD" /\ http.INM r <> http.inmAbsent)
          /\ (http.Status w = 304 -> http.INM r <> http.inmAbsent)) as Has.
  { unfold NewAssetHandler, mwSetCacheControl. case_match; apply Hasset. }
  simpl in *. destruct Has as (? & ? & ?), Hsw as (? & ? & ?).
  split; [done|]. split; intros [?|?]; auto.
Qed.

(** X6.  For a request without [Range], [If-Match],
    [If-Unmodified-Since] and [If-Modified-Since], and content that is
    read without a seek error, the response of either endpoint to a
    fresh writer has no [ETag] header exactly when its status is 404 or
    500, the replies the handlers write themselves; the 200, 304 and
    412 of [http.ServeContent] carry the tag. *)
Theorem no_etag_exactly_on_errors (assetsPath : string) (r : http.Request) :
  let asset := NewAssetHandler assetsPath http.NewRecorder r in
  let swagger := NewSwaggerHandler http.NewRecorder r in
  (http.Values asset "ETag" = [] <-> http.Status asset = 404 \/ http.Status asset = 500)
  /\ (http.Values swagger "ETag" = []
      <-> http.Status swagger = 404 \/ http.Status swagger = 500).
Proof.
  set (w0 := http.Add http.NewRecorder "Cache-Control" "public, max-age=3600").
  assert (forall f, let w := staticFileHandler f w0 r in
            http.Values w "ETag" = [] <-> http.Status w = 404 \/ http.Status w = 500) as Hfile.
  { intros f. destruct (Status_staticFileHandler f w0 r eq_refl) as (Hin & _ & _ & Hiff).
    specialize (Hiff eq_refl). simpl in *. split.
    - intros Hnone. right. by apply Hiff.
    - intros [H404|H500]; [|by apply Hiff].
      rewrite H404 in Hin. simpl in Hin. intuition lia. }
  assert (forall msg, let w := http.Error w0 msg http.StatusNotFound in
            http.Values w "ETag" = [] <-> http.Status w = 404 \/ http.Status w = 500) as Herr.
  { intros msg. cbv zeta. rewrite Status_Error by done.
    rewrite Values_Error by (repeat constructor; by vm_compute). split; [by left | done]. }
  split.
  - unfold NewAssetHandler, mwSetCacheControl, assetHandler.
    repeat case_match; first [apply Hfile | apply Herr].
  - unfold NewSwaggerHandler, mwSetCacheControl.
    case_match; [apply Hfile | apply Herr].
Qed.

(** X8.  With the default document in place, a 404 of the asset handler
    is never a missing file: it is the answer to an [Open] of the
    requested name that failed with an error other than not-exist, and
    its body is that error. *)
Theorem not_found_only_when_open_is_refused (fileOpener : fs.FS) (dir : string)
        (r : http.Request) (f0 : fs.File) :
  fileOpener (filepath.Join dir defaultFile) = Ok f0 ->
  http.Status (assetHandler fileOpener dir http.NewRecorder r) = 404 ->
  exists e,
    fileOpener (filepath.Join dir (assetName r)) = Err e
    /\ os.IsNotExist e = false
    /\ http.Body (assetHandler fileOpener dir http.NewRecorder r) = Error e +:+ http.newline.
Proof.
  intros Hd H404.
  assert (forall f, http.Status (staticFileHandler f http.NewRecorder r) <> 404) as Hfile.
  { intros f Hs. destruct (Status_staticFileHandler f http.NewRecorder r eq_refl) as (Hin & _).
    rewrite Hs in Hin. simpl in Hin. intuition lia. }
  unfold assetHandler in *.
  destruct (fileOpener (filepath.Join dir (assetName r))) as [f|e] eqn:Hopen.
  - rewrite (openAsset_found _ _ _ _ Hopen) in H404. by apply Hfile in H404.
  - destruct (os.IsNotExist e) eqn:Hk.
    + rewrite (openAsset_fallback _ _ _ _ Hopen Hk), Hd in H404. by apply Hfile in H404.
    + exists e. rewrite (openAsset_refused _ _ _ _ Hopen Hk). cbn [snd].
      by rewrite Body_Error.
Qed.

End MoreEndpoints.

(** X7.  A file with a modification time of its own is served without
    a look at the build date: two binaries that differ only in their
    build date, their parser or their embedded tree give the same
    response to it. *)
Theorem own_modtime_ignores_build_date (W1 W2 : World) (f : fs.File) (i : fs.FileInfo)
        (w : http.ResponseWriter) (r : http.Request) :
  fs.Stat f = Ok i -> time.IsZero (fs.ModTime i) = false ->
  @contentTypeOf W1 = @contentTypeOf W2 ->
  @httpTimeFormat W1 = @httpTimeFormat W2 ->
  @staticFileHandler W1 f w r = @staticFileHandler W2 f w r.
Proof.
  intros Hi Hz Hct Htf. unfold staticFileHandler, modTimeFromInfo.
  rewrite Hi, Hz. destruct (fs.ReadSeeker f); [|done].
  unfold http.ServeContent, http.setLastModified. by rewrite Hct, Htf.
Qed.

(** ** The wrapper and the wrapped handler *)

Lemma agreeBut_lookup (k : string) (w w' : http.ResponseWriter) (k1 : string) :
  agreeBut k w w' -> http.CanonicalHeaderKey k1 <> http.CanonicalHeaderKey k ->
  http.Header w !! http.CanonicalHeaderKey k1 = http.Header w' !! http.CanonicalHeaderKey k1.
Proof. intros (_ & _ & Hh) Hne. by apply Hh. Qed.

Lemma agreeBut_Values (k : string) (w w' : http.ResponseWriter) (k1 : string) :
  agreeBut k w w' -> http.CanonicalHeaderKey k1 <> http.CanonicalHeaderKey k ->
  http.Values w k1 = http.Values w' k1.
Proof. intros Ha Hne. unfold http.Values. by rewrite (agreeBut_lookup k w w' k1). Qed.

Lemma agreeBut_Get (k : string) (w w' : http.ResponseWriter) (k1 : string) :
  agreeBut k w w' -> http.CanonicalHeaderKey k1 <> http.CanonicalHeaderKey k ->
  http.Get w k1 = http.Get w' k1.
Proof. intros Ha Hne. unfold http.Get. by rewrite (agreeBut_Values k w w' k1). Qed.

Lemma agreeBut_Set (k : string) (w w' : http.ResponseWriter) (k1 v : string) :
  agreeBut k w w' -> agreeBut k (http.Set_ w k1 v) (http.Set_ w' k1 v).
Proof.
  intros (Hs & Hb & Hh). repeat split; [done..|]. intros k' Hk'. simpl.
  destruct (decide (http.CanonicalHeaderKey k1 = k')) as [->|Hne].
  - by rewrite !lookup_insert_eq.
  - rewrite !lookup_insert_ne by done. by apply Hh.
Qed.

Lemma agreeBut_Del (k : string) (w w' : http.ResponseWriter) (k1 : string) :
  agreeBut k w w' -> agreeBut k (http.Del w k1) (http.Del w' k1).
Proof.
  intros (Hs & Hb & Hh). repeat split; [done..|]. intros k' Hk'. simpl.
  destruct (decide (http.CanonicalHeaderKey k1 = k')) as [->|Hne].
  - by rewrite !lookup_delete_eq.
  - rewrite !lookup_delete_ne by done. by apply Hh.
Qed.

Lemma agreeBut_WriteHeader (k : string) (w w' : http.ResponseWriter) (code : Z) :
  agreeBut k w w' -> agreeBut k (http.WriteHeader w code) (http.WriteHeader w' code).
Proof.
  intros (Hs & Hb & Hh). unfold http.WriteHeader. rewrite <- Hs.
  by destruct (http.Status w =? 0).
Qed.

Lemma agreeBut_Write (k : string) (w w' : http.ResponseWriter) (b : string) :
  agreeBut k w w' -> agreeBut k (http.Write w b) (http.Write w' b).
Proof.
  intros Ha. apply (agreeBut_WriteHeader _ _ _ http.StatusOK) in Ha as (Hs & Hb & Hh).
  unfold http.Write. repeat split; simpl; [done | by rewrite Hb | done].
Qed.

Lemma agreeBut_Error (k : string) (w w' : http.ResponseWriter) (msg : string) (code : Z) :
  agreeBut k w w' -> agreeBut k (http.Error w msg code) (http.Error w' msg code).
Proof.
  intros Ha. unfold http.Error.
  by apply agreeBut_Write, agreeBut_WriteHeader, agreeBut_Set, agreeBut_Set, agreeBut_Del.
Qed.

Lemma agreeBut_Add_other (k : string) (w : http.ResponseWriter) (v : string) :
  agreeBut k (http.Add w k v) w.
Proof.
  repeat split. intros k' Hk'. simpl. by rewrite lookup_insert_ne.
Qed.

Section Wrapper.
Context `{World}.

Lemma agreeBut_ServeContent (k : string) (w w' : http.ResponseWriter) (r : http.Request)
      (name : string) (mt : time.Time) (content : string) :
  apart k ["Content-Type"; "Content-Encoding"; "ETag"] ->
  agreeBut k w w' ->
  agreeBut k (http.ServeContent w r name mt content)
             (http.ServeContent w' r name mt content).
Proof.
  intros Hk Ha. apart_tac.
  assert (agreeBut k (http.setLastModified w mt) (http.setLastModified w' mt)) as Ha1.
  { unfold http.setLastModified. case_match; [done | by apply agreeBut_Set]. }
  unfold http.ServeContent, http.writeNotModified.
  set (X := http.setLastModified w mt) in *.
  set (X' := http.setLastModified w' mt) in *.
  assert (http.checkIfNoneMatch X' r = http.checkIfNoneMatch X r) as ->.
  { unfold http.checkIfNoneMatch. by rewrite (agreeBut_Get k _ _ "Etag" Ha1). }
  assert (http.Header X' !! "Content-Type" = http.Header X !! "Content-Type") as ->
    by exact (eq_sym (agreeBut_lookup k X X' "Content-Type" Ha1 ltac:(done))).
  set (A := if bool_decide (http.Header X !! "Content-Type" = None)
            then http.Set_ X "Content-Type" (contentTypeOf name content) else X).
  set (A' := if bool_decide (http.Header X !! "Content-Type" = None)
             then http.Set_ X' "Content-Type" (contentTypeOf name content) else X').
  assert (agreeBut k A A') as Ha2.
  { unfold A, A'. case_match; [by apply agreeBut_Set | done]. }
  assert (http.Get (http.Set_ A' "Accept-Ranges" "bytes") "Content-Encoding"
          = http.Get (http.Set_ A "Accept-Ranges" "bytes") "Content-Encoding") as ->.
  { symmetry. apply (agreeBut_Get k); [by apply agreeBut_Set | done]. }
  set (D := http.Del (http.Del (http.Del X "Content-Type") "Content-Length")
                     "Content-Encoding").
  set (D' := http.Del (http.Del (http.Del X' "Content-Type") "Content-Length")
                      "Content-Encoding").
  assert (agreeBut k D D') as Ha3 by (by repeat apply agreeBut_Del).
  assert (http.Get D' "Etag" = http.Get D "Etag") as ->.
  { symmetry. by apply (agreeBut_Get k). }
  repeat case_match;
    repeat first [ apply agreeBut_Write | apply agreeBut_WriteHeader
                 | apply agreeBut_Set | apply agreeBut_Del ]; done.
Qed.

Lemma agreeBut_staticFileHandler (k : string) (f : fs.File) (w w' : http.ResponseWriter)
      (r : http.Request) :
  apart k ["Content-Type"; "Content-Encoding"; "ETag"] ->
  agreeBut k w w' ->
  agreeBut k (staticFileHandler f w r) (staticFileHandler f w' r).
Proof.
  intros Hk Ha. unfold staticFileHandler.
  repeat case_match; try (by apply agreeBut_Error).
  by apply agreeBut_ServeContent, agreeBut_Set.
Qed.

Lemma apart_CacheControl_reads :
  apart "Cache-Control" ["Content-Type"; "Content-Encoding"; "ETag"].
Proof. repeat constructor; by vm_compute. Qed.

(** X9.  The cache-control wrapper does nothing else: on both
    endpoints the wrapped response has the status, the body and every
    header other than [Cache-Control] that the handler alone would have
    given. *)
Theorem wrapper_changes_cache_control_only (fileOpener : fs.FS) (dir : string)
        (w : http.ResponseWriter) (r : http.Request) :
  agreeBut "Cache-Control"
           (mwSetCacheControl (assetHandler fileOpener dir) w r)
           (assetHandler fileOpener dir w r)
  /\ agreeBut "Cache-Control"
       (NewSwaggerHandler w r)
       (match embed.Open data (filepath.Join embedBaseDir swaggerFile) with
        | Err err => http.Error w (Error err) http.StatusNotFound
        | Ok f => staticFileHandler f w r
        end).
Proof.
  pose proof (agreeBut_Add_other "Cache-Control" w "public, max-age=3600") as Ha.
  split.
  - unfold mwSetCacheControl, assetHandler. case_match.
    + by apply agreeBut_staticFileHandler; [apply apart_CacheControl_reads|].
    + by apply agreeBut_Error.
  - unfold NewSwaggerHandler, mwSetCacheControl. case_match.
    + by apply agreeBut_staticFileHandler; [apply apart_CacheControl_reads|].
    + by apply agreeBut_Error.
Qed.

End Wrapper.

(** ** The shape of the entity tag *)

Lemma allChars_app (P : ascii -> bool) (a b : string) :
  allChars P (a +:+ b) = allChars P a && allChars P b.
Proof.
  induction a as [|c a IH]; [done|]. rewrite append_cons. simpl.
  by rewrite IH, andb_assoc.
Qed.

Lemma pretty_N_char_digit (x : N) : isDigitOrMinus (pretty_N_char x) = true.
Proof. unfold pretty_N_char. by repeat case_match. Qed.

Lemma pretty_N_go_chars (x : N) (s : string) :
  allChars isDigitOrMinus s = true -> allChars isDigitOrMinus (pretty_N_go x s) = true.
Proof.
  revert s. induction (N.lt_wf_0 x) as [x _ IH]. intros s Hs.
  destruct (decide (x = 0)%N) as [->|Hx]; [by rewrite pretty_N_go_0|].
  rewrite pretty_N_go_step by lia. apply IH.
  - apply N.div_lt; lia.
  - simpl. by rewrite pretty_N_char_digit.
Qed.

Lemma verb_d_chars (x : Z) : allChars isDigitOrMinus (fmt.verb_d x) = true.
Proof.
  assert (forall p : positive, allChars isDigitOrMinus (pretty p) = true) as Hpos.
  { intros p. unfold pretty, pretty_positive, pretty, pretty_N.
    rewrite decide_False by done. by apply pretty_N_go_chars. }
  unfold fmt.verb_d, pretty, pretty_Z. destruct x as [|p|p]; [done | apply Hpos |].
  rewrite allChars_app. by rewrite Hpos.
Qed.

Lemma verb_d_not_empty (x : Z) : fmt.verb_d x <> "".
Proof.
  intros Heq. unfold fmt.verb_d, pretty, pretty_Z in Heq. destruct x as [|p|p]; [done| |done].
  unfold pretty, pretty_positive, pretty, pretty_N in Heq.
  rewrite decide_False in Heq by done.
  rewrite pretty_N_go_step in Heq by lia.
  revert Heq. generalize (N.pos p `div` 10)%N (pretty_N_char (N.pos p `mod` 10)).
  intros n c. assert (forall s, s <> "" -> pretty_N_go n s <> "") as Hgo; [|by apply Hgo].
  induction (N.lt_wf_0 n) as [n _ IH]. intros s Hs.
  destruct (decide (n = 0)%N) as [->|Hn]; [by rewrite pretty_N_go_0|].
  rewrite pretty_N_go_step by lia. apply IH; [apply N.div_lt; lia | done].
Qed.

(** X10.  The tag is always a well-formed strong entity tag: a double
    quote, a non-empty run of decimal digits and minus signs, and a
    double quote. *)
Theorem etag_is_quoted_digits (s : Z) (mt : time.Time) :
  exists body,
    etag s mt = dquote +:+ body +:+ dquote
    /\ body <> ""
    /\ allChars isDigitOrMinus body = true.
Proof.
  exists (digits (etagFields s mt)). split; [apply etag_fields|].
  unfold etagFields. destruct (time.Clock mt) as [[hour minute] second].
  split.
  - simpl. pose proof (verb_d_not_empty s) as Hs.
    destruct (fmt.verb_d s); [done|]. by rewrite append_cons.
  - simpl. by rewrite !allChars_app, !verb_d_chars.
Qed.

(** * The component [TableOptions] *)

Example computedFieldOptions_example :
  let time := TableOptions.mkField "time" "" true in
  let p := TableOptions.mkProps
             [TableOptions.mkQueryConfig "cpu" [TableOptions.mkQueryField "usage_user";
                                                TableOptions.mkQueryField "usage_idle"]]
             (TableOptions.mkOptions true None false)
             (Some [TableOptions.mkField "cpu.usage_idle" "idle" false])
             "" in
  TableOptions.computedFieldOptions time p
  = [time; TableOptions.mkField "cpu.usage_user" "" true;
     TableOptions.mkField "cpu.usage_idle" "idle" false].
Proof. reflexivity. Qed.

Example moveField_example :
  let a := TableOptions.mkField "a" "" true in
  let b := TableOptions.mkField "b" "" true in
  let c := TableOptions.mkField "c" "" true in
  let p := TableOptions.mkProps [] (TableOptions.mkOptions true None false) (Some [a; b; c]) "" in
  TableOptions.moveField a p 0 2
  = Some [TableOptions.handleUpdateDisplayOptions
            (TableOptions.FieldOptions [Some b; Some c; Some a])]
  /\ TableOptions.moveField a p 5 1
     = Some [TableOptions.handleUpdateDisplayOptions
               (TableOptions.FieldOptions [Some a; None; Some b; Some c])].
Proof. split; reflexivity. Qed.

Section TableOptionsFacts.
Import TableOptions.
Variable TIME_FIELD_DEFAULT : RenamableField.

Lemma named_find (name : string) (l : list RenamableField) (c : RenamableField) :
  List.find (named name) l = Some c -> In c l /\ internalName c = name.
Proof.
  intros [Hin Hn]%find_some. split; [done|]. by apply bool_decide_eq_true in Hn.
Qed.

Lemma entryFor_name (p : Props) (name : string) : internalName (entryFor p name) = name.
Proof.
  unfold entryFor. destruct (List.find _ _) as [c|] eqn:Hf; [|done].
  by apply named_find in Hf as [_ ?].
Qed.

(** The computed field options are the time field followed by the entry
    of every query field name. *)
Lemma computedFieldOptions_entries (p : Props) :
  computedFieldOptions TIME_FIELD_DEFAULT p
  = timeField TIME_FIELD_DEFAULT p :: map (entryFor p) (queryFieldNames (queryConfigs p)).
Proof.
  unfold computedFieldOptions, queryFieldNames. f_equal.
  induction (queryConfigs p) as [|qc qcs IH]; [done|].
  simpl. rewrite map_app, <- IH. f_equal. by rewrite map_map.
Qed.

Lemma find_map_entry (p : Props) (names : list string) (n : string) :
  In n names -> List.find (named n) (map (entryFor p) names) = Some (entryFor p n).
Proof.
  induction names as [|m names IH]; [done|]. intros Hin. simpl.
  unfold named at 1. rewrite entryFor_name.
  destruct (decide (m = n)) as [->|Hne].
  - by rewrite bool_decide_eq_true_2.
  - rewrite bool_decide_eq_false_2 by done. apply IH. by destruct Hin.
Qed.

Lemma hasDot_qualified (m a : string) : hasDot (m +:+ "." +:+ a) = true.
Proof.
  induction m as [|c m IH]; [done|]. rewrite append_cons. simpl.
  by rewrite IH, orb_true_r.
Qed.

Lemma queryFieldNames_hasDot (qcs : list QueryConfig) (n : string) :
  In n (queryFieldNames qcs) -> hasDot n = true.
Proof.
  unfold queryFieldNames. intros Hin. apply in_concat in Hin as (l & Hl & Hn).
  apply in_map_iff in Hl as (qc & <- & _).
  apply in_map_iff in Hn as (f & <- & _). apply hasDot_qualified.
Qed.

(** X11.  The computed field options name the time field first and
    then every field of every query, qualified by its measurement, in
    the order of the queries: nothing is dropped and nothing is
    added. *)
Theorem computed_fields_are_time_and_queries (p : Props) :
  map internalName (computedFieldOptions TIME_FIELD_DEFAULT p)
  = internalName (timeField TIME_FIELD_DEFAULT p) :: queryFieldNames (queryConfigs p).
Proof.
  rewrite computedFieldOptions_entries. simpl. f_equal.
  rewrite map_map. erewrite map_ext; [apply map_id|]. apply entryFor_name.
Qed.

(** X12.  Computing the field options keeps what the user has set: the
    entry for a query field is the first field option of that name when
    there is one, and otherwise a new visible field without display
    name. *)
Theorem computed_fields_keep_customisation (p : Props) :
  Forall (fun c =>
            List.find (named (internalName c)) (getFieldOptions p) = Some c
            \/ (List.find (named (internalName c)) (getFieldOptions p) = None
                /\ displayName c = "" /\ visible c = true))
         (tail (computedFieldOptions TIME_FIELD_DEFAULT p)).
Proof.
  rewrite computedFieldOptions_entries. simpl.
  apply List.Forall_forall. intros c (n & <- & _)%in_map_iff.
  rewrite entryFor_name. unfold entryFor, getFieldOptions.
  destruct (List.find _ _) as [c|]; [by left | by right].
Qed.

(** X13.  Computing the field options is stable: when the default time
    field is called [time], computing them again from props that hold
    the computed field options gives the same list. *)
Theorem computed_fields_stable (p : Props) :
  internalName TIME_FIELD_DEFAULT = "time" ->
  computedFieldOptions TIME_FIELD_DEFAULT
    (withFieldOptions p (computedFieldOptions TIME_FIELD_DEFAULT p))
  = computedFieldOptions TIME_FIELD_DEFAULT p.
Proof.
  intros Hdef.
  assert (internalName (timeField TIME_FIELD_DEFAULT p) = "time") as Htime.
  { unfold timeField. destruct (List.find _ _) as [c|] eqn:Hf; [|done].
    by apply named_find in Hf as [_ ?]. }
  rewrite (computedFieldOptions_entries (withFieldOptions p _)).
  rewrite (computedFieldOptions_entries p). f_equal.
  - unfold timeField at 1, getFieldOptions. simpl.
    unfold named at 1. by rewrite Htime, bool_decide_eq_true_2.
  - apply map_ext_in. intros n Hn. unfold entryFor at 1. simpl.
    unfold named at 1. rewrite Htime.
    rewrite bool_decide_eq_false_2.
    + by rewrite find_map_entry.
    + intros <-. by apply queryFieldNames_hasDot in Hn.
Qed.

(** ** Moving a field *)

Lemma moveField_in_range (p : Props) (fo : list RenamableField) (d h : nat)
      (x : RenamableField) :
  fieldOptions p = Some fo -> (1 < length fo)%nat -> fo !! d = Some x ->
  moveField TIME_FIELD_DEFAULT p d h
  = Some [handleUpdateDisplayOptions (FieldOptions (Some <$> moveTo fo d h x))].
Proof.
  intros Hfo Hlen Hx. unfold moveField, moveTo. rewrite Hfo.
  apply Nat.ltb_lt in Hlen. rewrite Hlen, Hx, Nat.add_1_r.
  by rewrite fmap_app, fmap_cons.
Qed.

Lemma moveTo_removed {A : Type} (l : list A) (d : nat) (x : A) :
  l !! d = Some x ->
  l = take d l ++ x :: drop (S d) l /\ length (take d l) = d.
Proof.
  intros Hx. split; [by rewrite take_drop_middle|].
  apply lookup_lt_Some in Hx. rewrite length_take. lia.
Qed.

Lemma moveTo_Permutation {A : Type} (l : list A) (d h : nat) (x : A) :
  l !! d = Some x -> moveTo l d h x ≡ₚ l.
Proof.
  intros Hx. destruct (moveTo_removed l d x Hx) as [Hl _]. unfold moveTo.
  rewrite <- Permutation_middle, take_drop. rewrite Hl at 3.
  by rewrite <- Permutation_middle.
Qed.

Lemma moveTo_position {A : Type} (l : list A) (d h : nat) (x : A) :
  l !! d = Some x ->
  let k := (h `min` (length l - 1))%nat in
  moveTo l d h x !! k = Some x
  /\ take k (moveTo l d h x) ++ drop (S k) (moveTo l d h x)
     = take d l ++ drop (S d) l.
Proof.
  intros Hx. pose proof (lookup_lt_Some _ _ _ Hx) as Hd. unfold moveTo.
  set (r := take d l ++ drop (S d) l).
  assert (length r = (length l - 1)%nat) as Hr.
  { unfold r. rewrite length_app, length_take, length_drop. lia. }
  assert (length (take h r) = (h `min` (length l - 1))%nat) as Hk.
  { rewrite length_take. lia. }
  cbv zeta. rewrite <- Hk. split.
  - by rewrite list_lookup_middle.
  - rewrite take_app_length.
    rewrite (cons_middle x), app_assoc.
    assert (S (length (take h r)) = length (take h r ++ [x])) as ->
      by (rewrite length_app; simpl; lia).
    by rewrite drop_app_length, take_drop.
Qed.

Lemma moveTo_back {A : Type} (l : list A) (d h : nat) (x : A) :
  l !! d = Some x ->
  moveTo (moveTo l d h x) (h `min` (length l - 1)) d x = l.
Proof.
  intros Hx. destruct (moveTo_position l d h x Hx) as [_ Hrest].
  destruct (moveTo_removed l d x Hx) as [Hl Hlen].
  unfold moveTo at 1. cbv zeta in Hrest. rewrite Hrest.
  rewrite <- Hlen at 1. rewrite take_app_length.
  rewrite <- Hlen at 2. rewrite drop_app_length. by rewrite <- Hl.
Qed.

(** X14.  Moving a field reorders and nothing else: with more than one
    field option and a drag index within them, the list handed to the
    callback holds the same fields, the dragged field at the hover
    index (or last, when the hover index lies beyond), and the other
    fields in their old order. *)
Theorem moveField_reorders (p : Props) (fo : list RenamableField) (d h : nat)
        (x : RenamableField) :
  fieldOptions p = Some fo -> (1 < length fo)%nat -> fo !! d = Some x ->
  exists moved,
    moveField TIME_FIELD_DEFAULT p d h
    = Some [handleUpdateDisplayOptions (FieldOptions (Some <$> moved))]
    /\ moved ≡ₚ fo
    /\ moved !! (h `min` (length fo - 1))%nat = Some x
    /\ take (h `min` (length fo - 1)) moved ++ drop (S (h `min` (length fo - 1))) moved
       = take d fo ++ drop (S d) fo.
Proof.
  intros Hfo Hlen Hx. exists (moveTo fo d h x).
  split; [by apply moveField_in_range|].
  split; [by apply moveTo_Permutation|]. by apply moveTo_position.
Qed.

(** X15.  A move can be taken back, with more than one field option
    and a drag index among them: after a field was dragged from one
    index to another, dragging it from where it landed to where it was
    hands the original list to the callback. *)
Theorem moveField_back (p : Props) (fo : list RenamableField) (d h : nat)
        (x : RenamableField) :
  fieldOptions p = Some fo -> (1 < length fo)%nat -> fo !! d = Some x ->
  exists moved,
    moveField TIME_FIELD_DEFAULT p d h
    = Some [handleUpdateDisplayOptions (FieldOptions (Some <$> moved))]
    /\ moveField TIME_FIELD_DEFAULT (withFieldOptions p moved)
                 (h `min` (length fo - 1)) d
       = Some [handleUpdateDisplayOptions (FieldOptions (Some <$> fo))].
Proof.
  intros Hfo Hlen Hx. exists (moveTo fo d h x).
  split; [by apply moveField_in_range|].
  destruct (moveTo_position fo d h x Hx) as [Hk _].
  rewrite (moveField_in_range _ (moveTo fo d h x) _ _ x); [|done| |done].
  - by rewrite moveTo_back.
  - by rewrite (Permutation_length (moveTo_Permutation fo d h x Hx)).
Qed.

(** X16.  A drag index beyond the field options is not refused: with
    more than one field option, the list handed to the callback is the
    old list with an undefined entry put in at the hover index, one
    entry longer than before. *)
Theorem moveField_out_of_range (p : Props) (fo : list RenamableField) (d h : nat) :
  fieldOptions p = Some fo -> (1 < length fo)%nat -> (length fo <= d)%nat ->
  moveField TIME_FIELD_DEFAULT p d h
  = Some [handleUpdateDisplayOptions
            (FieldOptions ((Some <$> take h fo) ++ None :: (Some <$> drop h fo)))].
Proof.
  intros Hfo Hlen Hd. unfold moveField. rewrite Hfo.
  apply Nat.ltb_lt in Hlen. rewrite Hlen.
  rewrite (lookup_ge_None_2 fo d) by done.
  rewrite (take_ge fo d) by done. rewrite (drop_ge fo (d + 1)) by lia.
  by rewrite app_nil_r.
Qed.

(** ** Choosing the sort field and renaming a field *)

(** X17.  The options [render] offers lead back to the fields: choosing
    the option offered for a field option sorts by a visible field of
    that internal name, under the display name of the field option,
    except that a display name equal to the internal name is dropped. *)
Theorem choose_offered_option (p : Props) (fo : list RenamableField) (i : nat)
        (f : RenamableField) :
  fieldOptions p = Some fo -> fo !! i = Some f ->
  exists opts o,
    tableSortByOptions p = Some opts
    /\ opts !! i = Some o
    /\ handleChooseSortBy p o
       = [handleUpdateTableOptions
            (withSortBy (tableOptions p)
               (mkField (internalName f)
                        (if bool_decide (displayName f = internalName f) then ""
                         else displayName f)
                        true))].
Proof.
  intros Hfo Hf. exists (map optionOf fo), (optionOf f).
  split; [unfold tableSortByOptions; by rewrite Hfo|].
  split.
  { change (map optionOf fo) with (optionOf <$> fo). by rewrite list_lookup_fmap, Hf. }
  unfold handleChooseSortBy, optionOf, orElse. simpl. do 3 f_equal.
  destruct (decide (displayName f = "")) as [He|He].
  - rewrite (bool_decide_eq_true_2 _ He), bool_decide_eq_true_2 by done.
    rewrite He. by case_bool_decide.
  - rewrite (bool_decide_eq_false_2 _ He). done.
Qed.

(** X18.  Renaming touches display names only: the field options handed
    to the callback have the internal names of the old ones, in order;
    the fields of another internal name are as they were; the sort
    field keeps its internal name and its visibility, and the two other
    table options are as they were. *)
Theorem handleFieldUpdate_keeps_names (p : Props) (fo : list RenamableField)
        (s field : RenamableField) :
  fieldOptions p = Some fo -> sortBy (tableOptions p) = Some s ->
  exists s' fo',
    handleFieldUpdate p field
    = Some [handleUpdateTableOptions (withSortBy (tableOptions p) s');
            handleUpdateDisplayOptions (FieldOptions (Some <$> fo'))]
    /\ map internalName fo' = map internalName fo
    /\ (forall i f, fo !! i = Some f -> internalName f <> internalName field ->
                    fo' !! i = Some f)
    /\ internalName s' = internalName s /\ visible s' = visible s.
Proof.
  intros Hfo Hs. unfold handleFieldUpdate. rewrite Hfo, Hs.
  eexists _, _. split; [reflexivity|]. split; [|split].
  - rewrite map_map. apply map_ext. intros f. by case_bool_decide.
  - intros i f Hf Hne.
    change (map ?g fo) with (g <$> fo). rewrite list_lookup_fmap, Hf. simpl.
    by rewrite bool_decide_eq_false_2.
  - by case_bool_decide.
Qed.

(** X19.  Renaming keeps the sort field and the field options in
    agreement: if every field option with the internal name of the sort
    field had its display name before, the same holds of the values
    handed to the two callbacks; and when the renamed field is the sort
    field it holds whatever was the case before. *)
Theorem handleFieldUpdate_keeps_agreement (p : Props) (fo : list RenamableField)
        (s field : RenamableField) :
  fieldOptions p = Some fo -> sortBy (tableOptions p) = Some s ->
  sortByAgrees (tableOptions p) fo \/ internalName s = internalName field ->
  exists o' fo',
    handleFieldUpdate p field
    = Some [handleUpdateTableOptions o';
            handleUpdateDisplayOptions (FieldOptions (Some <$> fo'))]
    /\ sortByAgrees o' fo'.
Proof.
  intros Hfo Hs Hagree. unfold handleFieldUpdate. rewrite Hfo, Hs.
  eexists _, _. split; [reflexivity|].
  intros s' f Hs' Hin Hname. simpl in Hs'. injection Hs' as <-.
  apply in_map_iff in Hin as (f0 & <- & Hin0).
  destruct (decide (internalName s = internalName field)) as [Hsf|Hsf].
  - rewrite (bool_decide_eq_true_2 _ Hsf) in *. simpl in *.
    case_bool_decide; [done | congruence].
  - rewrite (bool_decide_eq_false_2 _ Hsf) in *.
    destruct Hagree as [Hagree|?]; [|done].
    case_bool_decide as Hf0; [congruence|].
    by apply (Hagree s f0).
Qed.

End TableOptionsFacts.

(** ** The further properties on the concrete world and table *)

Lemma missing_path_same_as_root_witness :
  @assetHandler sample.release (embed.Open sample.bundle) "data/build" http.NewRecorder
                (sample.get "/nothing/here")
  = @assetHandler sample.release (embed.Open sample.bundle) "data/build" http.NewRecorder
                  (withPath (sample.get "/nothing/here") "/").
Proof.
  apply (@missing_path_same_as_root sample.release (embed.Open sample.bundle) "data/build"
           http.NewRecorder (sample.get "/nothing/here")
           (fs.PathError "open" "data/build/nothing/here" fs.ErrNotExist NotExist));
    reflexivity.
Defined.

Lemma swagger_present_served_witness :
  http.Status (@NewSwaggerHandler sample.release http.NewRecorder (sample.get "/api")) = 200
  /\ http.Body (@NewSwaggerHandler sample.release http.NewRecorder (sample.get "/api"))
     = sample.swaggerJSON
  /\ http.Values (@NewSwaggerHandler sample.release http.NewRecorder (sample.get "/api")) "ETag"
     = [etag 2 sample.buildTime].
Proof.
  apply (@swagger_present_served sample.release (sample.get "/api")
           (embed.mkfile "data/swagger.json" sample.swaggerJSON) sample.buildTime);
    try reflexivity.
  discriminate.
Defined.

Lemma revalidation_gets_304_witness :
  let f := sample.regular "app.js" sample.appJS sample.modified in
  let r2 := http.mkRequest "GET" "/app.js" (http.inmTags [etag 14 sample.modified]) in
  http.Status (@staticFileHandler sample.release f http.NewRecorder r2) = 304
  /\ http.Body (@staticFileHandler sample.release f http.NewRecorder r2) = ""
  /\ http.Values (@staticFileHandler sample.release f http.NewRecorder r2) "ETag"
     = [etag 14 sample.modified]
  /\ http.Values (@staticFileHandler sample.release f http.NewRecorder r2) "Last-Modified" = []
  /\ http.Values (@staticFileHandler sample.release f http.NewRecorder r2) "Content-Type" = [].
Proof.
  apply (@revalidation_gets_304 sample.release
           (sample.regular "app.js" sample.appJS sample.modified)
           (fs.mkFileInfo "app.js" 14 sample.modified false)
           sample.appJS sample.modified http.NewRecorder (sample.get "/app.js")
           (http.mkRequest "GET" "/app.js" (http.inmTags [etag 14 sample.modified]))
           [etag 14 sample.modified]);
    try reflexivity.
  - left. reflexivity.
  - left. vm_compute. reflexivity.
Defined.

Lemma own_modtime_ignores_build_date_witness :
  @staticFileHandler sample.release (sample.regular "app.js" sample.appJS sample.modified)
                     http.NewRecorder (sample.get "/app.js")
  = @staticFileHandler sample.undated (sample.regular "app.js" sample.appJS sample.modified)
                       http.NewRecorder (sample.get "/app.js").
Proof.
  apply (own_modtime_ignores_build_date sample.release sample.undated
           (sample.regular "app.js" sample.appJS sample.modified)
           (fs.mkFileInfo "app.js" 14 sample.modified false));
    reflexivity.
Defined.

Lemma not_found_only_when_open_is_refused_witness :
  http.Status (@assetHandler sample.release sample.disk "" http.NewRecorder
                             (sample.get "/secret.key")) = 404
  /\ exists e,
      sample.disk (filepath.Join "" (assetName (sample.get "/secret.key"))) = Err e
      /\ os.IsNotExist e = false
      /\ http.Body (@assetHandler sample.release sample.disk "" http.NewRecorder
                                  (sample.get "/secret.key"))
         = Error e +:+ http.newline.
Proof.
  split; [vm_compute; reflexivity|].
  apply (@not_found_only_when_open_is_refused sample.release sample.disk ""
           (sample.get "/secret.key")
           (sample.regular "index.html" sample.indexHTML sample.modified)).
  - reflexivity.
  - vm_compute. reflexivity.
Defined.

Lemma computed_fields_stable_witness :
  TableOptions.computedFieldOptions sampleTable.time
    (TableOptions.withFieldOptions sampleTable.fresh
       (TableOptions.computedFieldOptions sampleTable.time sampleTable.fresh))
  = TableOptions.computedFieldOptions sampleTable.time sampleTable.fresh.
Proof.
  apply (computed_fields_stable sampleTable.time sampleTable.fresh). reflexivity.
Defined.

Lemma moveField_reorders_witness :
  exists moved,
    TableOptions.moveField sampleTable.time sampleTable.props 0 5
    = Some [TableOptions.handleUpdateDisplayOptions
              (TableOptions.FieldOptions (Some <$> moved))]
    /\ moved ≡ₚ [sampleTable.time; sampleTable.user; sampleTable.idle]
    /\ moved !! (5 `min` (3 - 1))%nat = Some sampleTable.time
    /\ take (5 `min` (3 - 1)) moved ++ drop (S (5 `min` (3 - 1))) moved
       = take 0 [sampleTable.time; sampleTable.user; sampleTable.idle]
         ++ drop 1 [sampleTable.time; sampleTable.user; sampleTable.idle].
Proof.
  apply (moveField_reorders sampleTable.time sampleTable.props
           [sampleTable.time; sampleTable.user; sampleTable.idle] 0 5 sampleTable.time);
    [reflexivity | simpl; lia | reflexivity].
Defined.

Lemma moveField_back_witness :
  exists moved,
    TableOptions.moveField sampleTable.time sampleTable.props 0 5
    = Some [TableOptions.handleUpdateDisplayOptions
              (TableOptions.FieldOptions (Some <$> moved))]
    /\ TableOptions.moveField sampleTable.time
         (TableOptions.withFieldOptions sampleTable.props moved) (5 `min` (3 - 1)) 0
       = Some [TableOptions.handleUpdateDisplayOptions
                 (TableOptions.FieldOptions
                    (Some <$> [sampleTable.time; sampleTable.user; sampleTable.idle]))].
Proof.
  apply (moveField_back sampleTable.time sampleTable.props
           [sampleTable.time; sampleTable.user; sampleTable.idle] 0 5 sampleTable.time);
    [reflexivity | simpl; lia | reflexivity].
Defined.

Lemma moveField_out_of_range_witness :
  TableOptions.moveField sampleTable.time sampleTable.props 7 1
  = Some [TableOptions.handleUpdateDisplayOptions
            (TableOptions.FieldOptions
               [Some sampleTable.time; None; Some sampleTable.user; Some sampleTable.idle])].
Proof.
  apply (moveField_out_of_range sampleTable.time sampleTable.props
           [sampleTable.time; sampleTable.user; sampleTable.idle] 7 1);
    [reflexivity | simpl; lia | simpl; lia].
Defined.

Lemma choose_offered_option_witness :
  exists opts o,
    TableOptions.tableSortByOptions sampleTable.props = Some opts
    /\ opts !! 2%nat = Some o
    /\ TableOptions.handleChooseSortBy sampleTable.props o
       = [TableOptions.handleUpdateTableOptions
            (TableOptions.withSortBy sampleTable.options
               (TableOptions.mkField "cpu.usage_idle" "idle" true))].
Proof.
  apply (choose_offered_option sampleTable.props
           [sampleTable.time; sampleTable.user; sampleTable.idle] 2 sampleTable.idle);
    reflexivity.
Defined.

Lemma handleFieldUpdate_keeps_names_witness :
  exists s' fo',
    TableOptions.handleFieldUpdate sampleTable.props
      (TableOptions.mkField "cpu.usage_idle" "spare" true)
    = Some [TableOptions.handleUpdateTableOptions
              (TableOptions.withSortBy sampleTable.options s');
            TableOptions.handleUpdateDisplayOptions
              (TableOptions.FieldOptions (Some <$> fo'))]
    /\ map TableOptions.internalName fo'
       = map TableOptions.internalName [sampleTable.time; sampleTable.user; sampleTable.idle]
    /\ (forall i f,
           [sampleTable.time; sampleTable.user; sampleTable.idle] !! i = Some f ->
           TableOptions.internalName f <> "cpu.usage_idle" -> fo' !! i = Some f)
    /\ TableOptions.internalName s' = "cpu.usage_idle"
    /\ TableOptions.visible s' = true.
Proof.
  apply (handleFieldUpdate_keeps_names sampleTable.props
           [sampleTable.time; sampleTable.user; sampleTable.idle]
           (TableOptions.mkField "cpu.usage_idle" "idle" true)
           (TableOptions.mkField "cpu.usage_idle" "spare" true));
    reflexivity.
Defined.

Lemma handleFieldUpdate_keeps_agreement_witness :
  exists o' fo',
    TableOptions.handleFieldUpdate sampleTable.props
      (TableOptions.mkField "cpu.usage_idle" "spare" true)
    = Some [TableOptions.handleUpdateTableOptions o';
            TableOptions.handleUpdateDisplayOptions
              (TableOptions.FieldOptions (Some <$> fo'))]
    /\ TableOptions.sortByAgrees o' fo'.
Proof.
  apply (handleFieldUpdate_keeps_agreement sampleTable.props
           [sampleTable.time; sampleTable.user; sampleTable.idle]
           (TableOptions.mkField "cpu.usage_idle" "idle" true)
           (TableOptions.mkField "cpu.usage_idle" "spare" true));
    [reflexivity | reflexivity | right; reflexivity].
Defined.

(** * The handlers, whatever the request carries and the library does *)

(** The handlers of the package are the handlers over any request, at
    the requests and the [http.ServeContent] of the model. *)
Lemma generic_staticFileHandler `{World} (f : fs.File) :
  generic.staticFileHandler http.ServeContent f = staticFileHandler f.
Proof. reflexivity. Qed.

Lemma generic_assetHandler `{World} (fileOpener : fs.FS) (dir : string) :
  generic.assetHandler http.URLPath http.ServeContent fileOpener dir
  = assetHandler fileOpener dir.
Proof. reflexivity. Qed.

Lemma generic_NewAssetHandler `{World} (assetsPath : string) :
  generic.NewAssetHandler http.URLPath http.ServeContent assetsPath
  = NewAssetHandler assetsPath.
Proof. reflexivity. Qed.

Lemma generic_NewSwaggerHandler `{World} :
  generic.NewSwaggerHandler http.ServeContent = NewSwaggerHandler.
Proof. reflexivity. Qed.

Lemma keepsHeader_ServeContent `{World} (k : string) :
  apart k ["Last-Modified"; "Content-Type"; "Content-Length";
           "Content-Encoding"; "Accept-Ranges"] ->
  keepsHeader k http.ServeContent.
Proof. intros Hk w r name mt content. by apply Values_ServeContent. Qed.

Section GenericFacts.
Context `{World} {Request : Type}.
Variable URLPath : Request -> string.
Variable serve :
  http.ResponseWriter -> Request -> string -> time.Time -> string -> http.ResponseWriter.




(** C4.  The entity tag is computed from the size and the effective
    modification time alone.  For two requests of any kind that observe
    a file of the same size and the same effective modification time,
    the handler sets the same [ETag] value, the size followed by the day
    of the month, the hour, the minute and the second between quotes,
    on the response writer before it passes the request to
    [http.ServeContent]; the two responses carry that value as long as
    [http.ServeContent] leaves the header alone. *)
Theorem etag_deterministic (f1 f2 : fs.File) (i1 i2 : fs.FileInfo)
        (c1 c2 : string) (t : time.Time)
        (w1 w2 : http.ResponseWriter) (r1 r2 : Request) :
  fs.Stat f1 = Ok i1 -> fs.Stat f2 = Ok i2 ->
  fs.ReadSeeker f1 = Some c1 -> fs.ReadSeeker f2 = Some c2 ->
  fs.Size i1 = fs.Size i2 ->
  modTimeFromInfo i1 = Ok t -> modTimeFromInfo i2 = Ok t ->
  let tag :=
    dquote +:+ fmt.verb_d (fs.Size i1) +:+ fmt.verb_d (time.Day t)
           +:+ fmt.verb_d (fst (fst (time.Clock t)))
           +:+ fmt.verb_d (snd (fst (time.Clock t)))
           +:+ fmt.verb_d (snd (time.Clock t)) +:+ dquote in
  generic.staticFileHandler serve f1 w1 r1
  = serve (http.Set_ w1 "ETag" tag) r1 (fs.Name i1) t c1
  /\ generic.staticFileHandler serve f2 w2 r2
     = serve (http.Set_ w2 "ETag" tag) r2 (fs.Name i2) t c2
  /\ http.Values (http.Set_ w1 "ETag" tag) "ETag" = [tag]
  /\ http.Values (http.Set_ w2 "ETag" tag) "ETag" = [tag]
  /\ (keepsHeader "ETag" serve ->
      http.Values (generic.staticFileHandler serve f1 w1 r1) "ETag" = [tag]
      /\ http.Values (generic.staticFileHandler serve f2 w2 r2) "ETag" = [tag]).
Proof.
  intros Hi1 Hi2 Hc1 Hc2 Hsize Ht1 Ht2 tag.
  assert (etag (fs.Size i1) t = tag) as Htag.
  { unfold etag, tag. by destruct (time.Clock t) as [[hour minute] second]. }
  assert (generic.staticFileHandler serve f1 w1 r1
          = serve (http.Set_ w1 "ETag" tag) r1 (fs.Name i1) t c1) as H1.
  { unfold generic.staticFileHandler. by rewrite Hc1, Hi1, Ht1, Htag. }
  assert (generic.staticFileHandler serve f2 w2 r2
          = serve (http.Set_ w2 "ETag" tag) r2 (fs.Name i2) t c2) as H2.
  { unfold generic.staticFileHandler. by rewrite Hc2, Hi2, Ht2, <- Hsize, Htag. }
  split; [done|]. split; [done|].
  split; [apply Values_Set_eq|]. split; [apply Values_Set_eq|].
  intros Hkeep. rewrite H1, H2, !Hkeep. split; apply Values_Set_eq.
Qed.

End GenericFacts.

(** ** Names handed to the asset source, for every path a server delivers *)

Lemma HasPrefix_app_slash (a b : string) :
  a <> "" -> strings.HasPrefix (a +:+ b) "/" = strings.HasPrefix a "/".
Proof. by destruct a. Qed.

(** Joining a clean directory with [.] gives the directory. *)
Lemma Join_dot (dir : string) :
  dir = "" \/ (fs.ValidPath dir = true /\ dir <> ".") ->
  filepath.Join dir "." = rootOf dir.
Proof.
  intros Hdir. unfold filepath.Join, rootOf.
  destruct (decide (dir = "")) as [->|Hne]; [done|].
  destruct Hdir as [?|[Hv Hdot]]; [done|].
  pose proof (ValidPath_elems dir Hv Hdot) as Hall.
  assert (strings.HasPrefix dir "/" = false) as Hroot.
  { destruct (strings.HasPrefix dir "/") eqn:Hr; [|done].
    apply HasPrefix_slash in Hr as [q ->].
    rewrite SplitSlash_String in Hall. simpl in Hall. by vm_compute in Hall. }
  unfold path.Clean.
  rewrite decide_False by (by destruct dir).
  rewrite HasPrefix_app_slash, Hroot by done.
  rewrite SplitSlash_app, fold_left_app.
  rewrite (fold_step_push false (strings.SplitSlash dir) []) by done.
  rewrite app_nil_r.
  assert (fold_left (path.step false) (strings.SplitSlash ".") (rev (strings.SplitSlash dir))
          = rev (strings.SplitSlash dir)) as -> by done.
  pose proof (SplitSlash_not_nil dir) as Hnil.
  rewrite decide_False.
  - by rewrite rev_involutive, JoinSlash_SplitSlash.
  - intros Hrev. apply Hnil. apply (f_equal (@rev string)) in Hrev.
    by rewrite rev_involutive in Hrev.
Qed.

Lemma ValidPath_rootOf (dir : string) :
  dir = "" \/ (fs.ValidPath dir = true /\ dir <> ".") -> fs.ValidPath (rootOf dir) = true.
Proof.
  unfold rootOf. intros [->|[Hv _]]; [done|]. by destruct (decide (dir = "")) as [->|].
Qed.

(** The name asked for, on a path a server delivers, is a valid name. *)
Lemma assetName_deliverable (r : http.Request) :
  deliverable (http.URLPath r) -> fs.ValidPath (assetName r) = true.
Proof.
  intros [Hroot|[Hp|Hp]].
  - by apply assetName_valid.
  - unfold assetName. by rewrite Hp.
  - unfold assetName. by rewrite Hp.
Qed.

(** C9.  For every URL path a server delivers, with or without [..]
    elements, every name the handler hands to the asset source is a
    valid name, without any [..] element, and lies in the directory the
    handler serves from: it is that directory itself or the directory
    followed by a valid relative name.  So no name handed to the asset
    source leaves the asset tree. *)
Theorem request_path_stays_inside (fileOpener : fs.FS) (dir : string) (r : http.Request) :
  deliverable (http.URLPath r) ->
  dir = "" \/ (fs.ValidPath dir = true /\ dir <> ".") ->
  Forall (fun n =>
            fs.ValidPath n = true
            /\ ~ In ".." (strings.SplitSlash n)
            /\ (n = rootOf dir
                \/ exists rel, n = under dir rel /\ fs.ValidPath rel = true /\ rel <> "."))
         (fst (openAsset fileOpener dir (assetName r))).
Proof.
  intros Hp Hdir. pose proof (assetName_deliverable r Hp) as Hv.
  assert (forall name, fs.ValidPath name = true ->
            fs.ValidPath (filepath.Join dir name) = true
            /\ ~ In ".." (strings.SplitSlash (filepath.Join dir name))
            /\ (filepath.Join dir name = rootOf dir
                \/ exists rel, filepath.Join dir name = under dir rel
                               /\ fs.ValidPath rel = true /\ rel <> ".")) as Hok.
  { intros name Hname. destruct (decide (name = ".")) as [->|Hdot].
    - rewrite Join_dot by done. pose proof (ValidPath_rootOf dir Hdir) as Hr.
      split; [done|]. split; [by apply ValidPath_no_dotdot | by left].
    - rewrite (Join_valid dir name Hdir Hname Hdot).
      destruct (ValidPath_under dir name Hdir Hname Hdot) as [Hu _].
      split; [done|]. split; [by apply ValidPath_no_dotdot|]. right. by exists name. }
  assert (fs.ValidPath defaultFile = true) as Hdv by done.
  unfold openAsset.
  repeat case_match; simpl; repeat (constructor; [by apply Hok|]); constructor.
Qed.


Lemma etag_deterministic_witness :
  let f := sample.regular "app.js" sample.appJS sample.modified in
  let serve := @http.ServeContent sample.release in
  let r1 := sample.get "/app.js" in
  let r2 := http.mkRequest "HEAD" "/app.js" (http.inmTags [etag 14 sample.modified]) in
  let tag := etag 14 sample.modified in
  keepsHeader "ETag" serve
  /\ @generic.staticFileHandler sample.release http.Request serve f http.NewRecorder r1
     = serve (http.Set_ http.NewRecorder "ETag" tag) r1 "app.js" sample.modified sample.appJS
  /\ @generic.staticFileHandler sample.release http.Request serve f http.NewRecorder r2
     = serve (http.Set_ http.NewRecorder "ETag" tag) r2 "app.js" sample.modified sample.appJS
  /\ http.Values (http.Set_ http.NewRecorder "ETag" tag) "ETag" = [tag]
  /\ http.Values (http.Set_ http.NewRecorder "ETag" tag) "ETag" = [tag]
  /\ (keepsHeader "ETag" serve ->
      http.Values (@generic.staticFileHandler sample.release http.Request serve f
                     http.NewRecorder r1) "ETag" = [tag]
      /\ http.Values (@generic.staticFileHandler sample.release http.Request serve f
                        http.NewRecorder r2) "ETag" = [tag]).
Proof.
  cbv zeta. split; [apply (@keepsHeader_ServeContent sample.release), apart_ETag|].
  apply (@etag_deterministic sample.release http.Request (@http.ServeContent sample.release)
           (sample.regular "app.js" sample.appJS sample.modified)
           (sample.regular "app.js" sample.appJS sample.modified)
           (fs.mkFileInfo "app.js" 14 sample.modified false)
           (fs.mkFileInfo "app.js" 14 sample.modified false)
           sample.appJS sample.appJS sample.modified
           http.NewRecorder http.NewRecorder
           (sample.get "/app.js")
           (http.mkRequest "HEAD" "/app.js" (http.inmTags [etag 14 sample.modified])));
    reflexivity.
Defined.

Lemma request_path_stays_inside_witness :
  (deliverable (http.URLPath (sample.get "/../../etc/passwd"))
   /\ Forall (fun n =>
                fs.ValidPath n = true
                /\ ~ In ".." (strings.SplitSlash n)
                /\ (n = rootOf "data/build"
                    \/ exists rel, n = under "data/build" rel
                                   /\ fs.ValidPath rel = true /\ rel <> "."))
             (fst (openAsset (embed.Open sample.bundle) "data/build"
                             (assetName (sample.get "/../../etc/passwd")))))
  /\ (deliverable (http.URLPath (sample.get ""))
      /\ Forall (fun n =>
                   fs.ValidPath n = true
                   /\ ~ In ".." (strings.SplitSlash n)
                   /\ (n = rootOf "data/build"
                       \/ exists rel, n = under "data/build" rel
                                      /\ fs.ValidPath rel = true /\ rel <> "."))
                (fst (openAsset (embed.Open sample.bundle) "data/build"
                                (assetName (sample.get ""))))).
Proof.
  split.
  - split; [by left|].
    apply (request_path_stays_inside (embed.Open sample.bundle) "data/build"
             (sample.get "/../../etc/passwd")); [by left|].
    right. split; [reflexivity | discriminate].
  - split; [by right; left|].
    apply (request_path_stays_inside (embed.Open sample.bundle) "data/build"
             (sample.get "")); [by right; left|].
    right. split; [reflexivity | discriminate].
Defined.

(** The names opened on the paths of the two requests above, and on
    the asterisk. *)
Example names_opened_on_deliverable_paths :
  fst (openAsset (embed.Open sample.bundle) "data/build"
                 (assetName (sample.get "/../../etc/passwd")))
  = ["data/build/etc/passwd"; "data/build/index.html"]
  /\ fst (openAsset (embed.Open sample.bundle) "data/build" (assetName (sample.get "")))
     = ["data/build"]
  /\ fst (openAsset (embed.Open sample.bundle) "data/build" (assetName (sample.get "*")))
     = ["data/build/*"; "data/build/index.html"].
Proof. repeat split; reflexivity. Qed.
